(** * Order confirmation modal: pricing, aggregation, export and form state

    A shallow embedding of the computational core of [OrderConfirmationModal]
    (the React component of the procurement ordering flow) together with the
    properties its specification states about it.

    The component is TypeScript.  Its numbers are IEEE 754 binary64 values and
    are modelled by Rocq's primitive [float], whose operations are the same
    round-to-nearest-even operations a JavaScript engine performs; optional
    fields ([averagePrice?: number]) are [option] values, [None] standing for
    [undefined]; strings are sequences of UTF-16 code units; the [OrderData]
    object, which the change handlers update through a computed key
    ([{...prev, [name]: value}]), is a finite map from property names to
    values; the callbacks the click handlers invoke are recorded as a trace.

    The definitions come first, module by module as the specification names
    the parts (PriceMath, ProductAggregator, OrderExportAdapter,
    OrderFormState); the properties follow.  Two facts about binary64
    addition are derived from the specification of the primitive operation:
    sums of non-negative integers are exact below 2^53, and a sum is the
    negative zero only when both terms are. *)

From Stdlib Require Import Floats ZArith Uint63 List Permutation Ascii String.
From stdpp Require Import gmap strings list.

Set Warnings "-inexact-float".

(** ** The fragment of JavaScript the component relies on *)

Module JS.

(** A JS [number]. *)
Abbreviation number := float.

(** [ToBoolean] on a number: [+0], [-0] and [NaN] are falsy, every other
    number (the infinities included) is truthy. *)
Definition truthy (x : number) : bool := negb ((x =? 0)%float || is_nan x).

(** [ToBoolean] on a value of type [number | undefined]. *)
Definition truthy_opt (o : option number) : bool :=
  match o with
  | Some x => truthy x
  | None => false
  end.

(** [ToNumber] on a value of type [number | undefined]: [undefined] becomes
    [NaN].  The component only reads an optional field in arithmetic under a
    truthiness test of the same field. *)
Definition ToNumber (o : option number) : number :=
  match o with
  | Some x => x
  | None => nan
  end.

(** The global [isNaN] on a number. *)
Definition isNaN (x : number) : bool := is_nan x.

(** The global [isFinite] on a number. *)
Definition isFinite (x : number) : bool := negb (is_nan x || is_infinity x).

(** The number that represents the integer [n], for [0 <= n < 2^63] (the
    conversion is exact up to [2^53]). *)
Definition of_int (n : Z) : number := of_uint63 (Uint63.of_Z n).

(** The [length] of an array as a number (array lengths are below [2^32],
    far inside the range where the conversion is exact). *)
Definition of_length (n : nat) : number := of_int (Z.of_nat n).

(** A JS string: its sequence of UTF-16 code units. *)
Abbreviation jsstring := (list N).

(** A string literal of the source (ASCII only). *)
Definition str (s : string) : jsstring :=
  List.map N_of_ascii (String.list_ascii_of_string s).

(** [ToBoolean] on a string: only the empty string is falsy. *)
Definition str_truthy (s : jsstring) : bool :=
  match s with
  | [] => false
  | _ :: _ => true
  end.

(** The code units [String.prototype.trim] strips: the language's
    [WhiteSpace] (TAB, VT, FF, ZWNBSP and the Unicode space separators) and
    [LineTerminator] (LF, CR, LS, PS) productions. *)
Definition isWhiteSpace (c : N) : bool :=
  ((c =? 9) || (c =? 10) || (c =? 11) || (c =? 12) || (c =? 13) ||
   (c =? 32) || (c =? 160) || (c =? 5760) ||
   ((8192 <=? c) && (c <=? 8202)) ||
   (c =? 8232) || (c =? 8233) || (c =? 8239) || (c =? 8287) ||
   (c =? 12288) || (c =? 65279))%N.

Fixpoint trimStart (s : jsstring) : jsstring :=
  match s with
  | [] => []
  | c :: s' => if isWhiteSpace c then trimStart s' else s
  end.

Definition trimEnd (s : jsstring) : jsstring := rev (trimStart (rev s)).

Definition trim (s : jsstring) : jsstring := trimEnd (trimStart s).

(** The values stored in the properties of [OrderData]. *)
Inductive value : Type :=
| VStr (s : jsstring)
| VBool (b : bool).

(** [ToBoolean] on the read of a property that may be missing. *)
Definition value_truthy (o : option value) : bool :=
  match o with
  | Some (VStr s) => str_truthy s
  | Some (VBool b) => b
  | None => false
  end.

End JS.

Import JS.

(** ** The binary64 representation of the integers below [2^53] *)

Module Binary64.

(** [q * 2^k] on binary positive numbers: [k] zero bits appended. *)
Definition shl (q : positive) (k : nat) : positive := Nat.iter k xO q.

(** The representation of the positive integer [q] as a float of 53
    significant bits: the mantissa is [q] shifted to 53 bits, and the
    exponent undoes the shift. *)
Definition canonical (q : positive) : spec_float :=
  S754_finite false
    (shl q (Z.to_nat (prec - Z.pos (digits2_pos q))))
    (Z.pos (digits2_pos q) - prec).

(** A finite number in the specification of the primitive floats: a zero or
    a number with a mantissa. *)
Definition SFfinite (f : spec_float) : Prop :=
  match f with
  | S754_zero _ | S754_finite _ _ _ => True
  | S754_infinity _ | S754_nan => False
  end.

End Binary64.

(** ** Data model (the exported interfaces) *)

Module PriceBreakdown.
Record t : Type := mk {
  quantity : number;
  unitPrice : number;
  supplier : jsstring;
  stock : number
}.
End PriceBreakdown.

Module ProductItem.
Record t : Type := mk {
  id : jsstring;
  name : jsstring;
  code : jsstring;
  supplier : jsstring;
  quantity : number;
  unitPrice : number;
  priceBreakdowns : option (list PriceBreakdown.t);
  averagePrice : option number;
  publicPrice : option number;
  vat : option number
}.

End ProductItem.

(** The row type of the export utility, as [handleExport] builds it. *)
Module OrderExportProduct.
Record t : Type := mk {
  id : jsstring;
  name : jsstring;
  code : jsstring;
  quantity : number;
  unitPrice : number;
  averagePrice : option number;
  priceBreakdowns : option (list PriceBreakdown.t);
  publicPrice : option number;
  vat : option number
}.
End OrderExportProduct.

(** [OrderData] is a JS object; its declared properties are [orderName],
    [expectedDeliveryDate], [notes], [priority], [paymentMethod],
    [saveAsTemplate] and [notifyOnDelivery]. *)
Abbreviation OrderData := (gmap string value).

(** ** PriceMath: the figures [ProductRow] derives for one product *)

Module PriceMath.
Import ProductItem.
Local Open Scope float_scope.


Definition savingsVsAverage (product : ProductItem.t) : number :=
  if truthy_opt (averagePrice product)
  then (ToNumber (averagePrice product) - unitPrice product) * quantity product
  else 0.

Definition grossDiscount (product : ProductItem.t) : number :=
  if truthy_opt (publicPrice product)
  then ToNumber (publicPrice product) - unitPrice product
  else 0.

Definition grossDiscountPercent (product : ProductItem.t) : number :=
  if truthy_opt (publicPrice product)
  then (grossDiscount product / ToNumber (publicPrice product)) * 100
  else 0.

(** [a && b ? x : y] tests [b] only when [a] is truthy, and takes [x] when
    both are. *)
Definition netPublicPrice (product : ProductItem.t) : number :=
  if truthy_opt (publicPrice product) && truthy_opt (vat product)
  then ToNumber (publicPrice product) / (1 + ToNumber (vat product) / 100)
  else 0.

Definition netDiscount (product : ProductItem.t) : number :=
  if truthy (netPublicPrice product)
  then netPublicPrice product - unitPrice product
  else 0.

Definition netDiscountPercent (product : ProductItem.t) : number :=
  if truthy (netPublicPrice product)
  then (netDiscount product / netPublicPrice product) * 100
  else 0.

End PriceMath.

(** ** ProductAggregator: the order-level statistics of the modal *)

Module ProductAggregator.
Import ProductItem.
Local Open Scope float_scope.

(** [new Set(products.map(product => product.supplier)).size] *)
Definition uniqueSuppliers (products : list ProductItem.t) : nat :=
  size (list_to_set (List.map supplier products) : gset jsstring).

(** [products.reduce((sum, product) => sum + product.quantity, 0)] *)
Definition totalQuantity (products : list ProductItem.t) : number :=
  fold_left (fun sum product => sum + quantity product) products 0.

Definition totalSavingsVsAverage (products : list ProductItem.t) : number :=
  fold_left
    (fun sum product =>
       if truthy_opt (averagePrice product)
       then sum + ((ToNumber (averagePrice product) - unitPrice product)
                   * quantity product)
       else sum)
    products 0.

(** The guard of the "Savings vs Avg" line of the summary:
    [totalSavingsVsAverage > 0]. *)
Definition showTotalSavings (products : list ProductItem.t) : bool :=
  0 <? totalSavingsVsAverage products.

(** The reducer of [averageDiscountPercent]. *)
Definition discountStep (sum : number) (product : ProductItem.t) : number :=
  if truthy_opt (publicPrice product)
  then
    let discount :=
      ((ToNumber (publicPrice product) - unitPrice product)
       / ToNumber (publicPrice product)) * 100 in
    sum + discount
  else sum.

(** [products.filter(p => p.publicPrice)] *)
Definition eligible (products : list ProductItem.t) : list ProductItem.t :=
  List.filter (fun p => truthy_opt (publicPrice p)) products.

Definition averageDiscountPercent (products : list ProductItem.t) : number :=
  fold_left discountStep products 0 / of_length (length (eligible products)).

(** The guard of the "Avg Discount" line of the summary:
    [!isNaN(averageDiscountPercent) && averageDiscountPercent > 0]. *)
Definition showAverageDiscount (products : list ProductItem.t) : bool :=
  negb (isNaN (averageDiscountPercent products))
  && (0 <? averageDiscountPercent products).

End ProductAggregator.

(** ** What the component does to its surroundings

    The modal receives [onClose], [onSaveAsDraft] and [onSubmitOrder] as
    props and imports [exportOrderSummary]; none of them is defined by the
    component.  A handler is modelled by the sequence of calls it makes. *)

Inductive Format : Type := csv | xlsx.

Inductive Effect : Type :=
| onSaveAsDraft
| onSubmitOrder (orderData : OrderData)
| onClose
| exportOrderSummary (title : value) (rows : list OrderExportProduct.t)
    (format : Format) (userRole : jsstring).

(** ** OrderExportAdapter: [handleExport] *)

Module OrderExportAdapter.

(** [a || b] on a property read: [a] when it is truthy, [b] otherwise. *)
Definition or_else (a : option value) (b : value) : value :=
  match a with
  | Some v => if value_truthy a then v else b
  | None => b
  end.

(** The object literal [handleExport] maps over the products. *)
Definition exportProduct (product : ProductItem.t) : OrderExportProduct.t :=
  {| OrderExportProduct.id := ProductItem.id product;
     OrderExportProduct.name := ProductItem.name product;
     OrderExportProduct.code := ProductItem.code product;
     OrderExportProduct.quantity := ProductItem.quantity product;
     OrderExportProduct.unitPrice := ProductItem.unitPrice product;
     OrderExportProduct.averagePrice := ProductItem.averagePrice product;
     OrderExportProduct.priceBreakdowns := ProductItem.priceBreakdowns product;
     OrderExportProduct.publicPrice := ProductItem.publicPrice product;
     OrderExportProduct.vat := ProductItem.vat product |}.

Definition handleExport (orderData : OrderData) (products : list ProductItem.t)
    (userRole : jsstring) (format : Format) : list Effect :=
  let orderName := or_else (orderData !! "orderName") (VStr (str "Untitled Order")) in
  let exportProducts := List.map exportProduct products in
  [exportOrderSummary orderName exportProducts format userRole].

End OrderExportAdapter.

(** ** OrderFormState: the [orderData] state, its handlers and the buttons *)

Module OrderFormState.

(** The initial state of [useState]; [today] is
    [new Date().toISOString().split('T')[0]]. *)
Definition initialOrderData (today : jsstring) : OrderData :=
  <["orderName" := VStr []]>
  (<["expectedDeliveryDate" := VStr today]>
  (<["notes" := VStr []]>
  (<["priority" := VStr (str "urgent")]>
  (<["paymentMethod" := VStr (str "Invoice 30 days")]>
  (<["saveAsTemplate" := VBool false]>
  (<["notifyOnDelivery" := VBool false]> ∅)))))).

(** [setOrderData(prev => ({ ...prev, [name]: value }))] *)
Definition handleChange (name : string) (value : jsstring) (prev : OrderData) : OrderData :=
  <[name := VStr value]> prev.

Definition handleCheckboxChange (name : string) (checked : bool) (prev : OrderData) : OrderData :=
  <[name := VBool checked]> prev.

Definition handleSelectChange (name : string) (value : jsstring) (prev : OrderData) : OrderData :=
  <[name := VStr value]> prev.

Definition handleRadioChange (value : jsstring) (prev : OrderData) : OrderData :=
  <["priority" := VStr value]> prev.

(** The input events of the form: the text fields ([orderName],
    [expectedDeliveryDate], [notes]) are wired to [handleChange], the two
    checkboxes to [handleCheckboxChange], the payment select to
    [handleSelectChange] and the priority radio group to [handleRadioChange].
    [name] is [e.target.name]. *)
Inductive InputEvent : Type :=
| TextChange (name : string) (value : jsstring)
| CheckboxToggle (name : string) (checked : bool)
| SelectChange (name : string) (value : jsstring)
| RadioChoice (value : jsstring).

Definition dispatch (e : InputEvent) (prev : OrderData) : OrderData :=
  match e with
  | TextChange name value => handleChange name value prev
  | CheckboxToggle name checked => handleCheckboxChange name checked prev
  | SelectChange name value => handleSelectChange name value prev
  | RadioChoice value => handleRadioChange value prev
  end.

(** The events the rendered form can raise: each control carries the [name]
    attribute the JSX gives it. *)
Definition wired (e : InputEvent) : bool :=
  match e with
  | TextChange name _ =>
      bool_decide (name = "orderName") || bool_decide (name = "expectedDeliveryDate")
      || bool_decide (name = "notes")
  | CheckboxToggle name _ =>
      bool_decide (name = "saveAsTemplate") || bool_decide (name = "notifyOnDelivery")
  | SelectChange name _ => bool_decide (name = "paymentMethod")
  | RadioChoice _ => true
  end.

(** The property an event writes, and the value it writes there. *)
Definition target (e : InputEvent) : string :=
  match e with
  | TextChange name _ | CheckboxToggle name _ | SelectChange name _ => name
  | RadioChoice _ => "priority"
  end.

Definition written (e : InputEvent) : value :=
  match e with
  | TextChange _ v | SelectChange _ v | RadioChoice v => VStr v
  | CheckboxToggle _ b => VBool b
  end.

(** [disabled={!orderData.orderName.trim()}] on the submit button.  [None]
    is the [TypeError] of calling [trim] on a property that holds no string. *)
Definition submitDisabled (orderData : OrderData) : option bool :=
  match orderData !! "orderName" with
  | Some (VStr s) => Some (negb (str_truthy (trim s)))
  | _ => None
  end.

(** The "Save Draft" button has no [disabled] attribute. *)
Definition saveDraftDisabled (orderData : OrderData) : bool := false.

(** A click on "Submit Order": a disabled button dispatches no click. *)
Definition clickSubmit (orderData : OrderData) : list Effect :=
  match submitDisabled orderData with
  | Some false => [onSubmitOrder orderData; onClose]
  | _ => []
  end.

(** A click on "Save Draft". *)
Definition clickSaveDraft (orderData : OrderData) : list Effect :=
  if saveDraftDisabled orderData then [] else [onSaveAsDraft; onClose].

End OrderFormState.

(** ** The sums and means of the specification

    The specification words the aggregates as sums and means of the
    per-product figures of [PriceMath]; these definitions follow its words,
    to be compared with the reducers of [ProductAggregator]. *)

Module Summation.
Import ProductItem.
Local Open Scope float_scope.

(** The sum of a list of numbers, accumulated from 0 and from the left (the
    order in which a [reduce] visits them). *)
Definition sum_left (terms : list number) : number :=
  fold_left PrimFloat.add terms 0.

(** The summands of [totalQuantity]. *)
Definition quantityTerms (products : list ProductItem.t) : list number :=
  List.map quantity products.

(** The products that have a (truthy) [averagePrice]. *)
Definition withAverage (products : list ProductItem.t) : list ProductItem.t :=
  List.filter (fun p => truthy_opt (averagePrice p)) products.

(** The summands of [totalSavingsVsAverage]. *)
Definition savingsTerms (products : list ProductItem.t) : list number :=
  List.map PriceMath.savingsVsAverage (withAverage products).

(** The summands of [averageDiscountPercent]. *)
Definition discountTerms (products : list ProductItem.t) : list number :=
  List.map PriceMath.grossDiscountPercent (ProductAggregator.eligible products).

(** The exact total of the quantities of a list, when [units p] is the
    integer the quantity of [p] stands for. *)
Definition integerTotal (units : ProductItem.t -> Z)
    (products : list ProductItem.t) : Z :=
  fold_right Z.add 0%Z (List.map units products).

End Summation.

(** ** Sample inputs *)

Module Samples.
Local Open Scope float_scope.

(** An order line of a given supplier, with no price tiers. *)
Definition lineOf (supplier : string) (quantity unitPrice : number)
    (averagePrice publicPrice vat : option number) : ProductItem.t :=
  ProductItem.mk (str "p-1") (str "Gauze") (str "G-100") (str supplier)
    quantity unitPrice None averagePrice publicPrice vat.

(** An order line of supplier ["ACME"]. *)
Definition line : number -> number -> option number -> option number ->
                  option number -> ProductItem.t :=
  lineOf "ACME".

(** [{quantity: 3, unitPrice: 10}]: neither public price nor VAT. *)
Definition plain : ProductItem.t := line 3 10 None None None.

(** [{quantity: 3, unitPrice: 10, publicPrice: 15, vat: 20}] *)
Definition listed : ProductItem.t := line 3 10 None (Some 15) (Some 20).

(** [{quantity: 3, unitPrice: 10, publicPrice: 15, vat: 0}]: a zero-rated line. *)
Definition zeroRated : ProductItem.t := line 3 10 None (Some 15) (Some 0).

(** [{quantity: 3, unitPrice: 10, publicPrice: 15, vat: -100}] *)
Definition minusHundred : ProductItem.t := line 3 10 None (Some 15) (Some (-100)).

(** [{quantity: 3, unitPrice: 10, publicPrice: 1e-310}] *)
Definition tinyPublic : ProductItem.t := line 3 10 None (Some 1e-310) None.

(** [{quantity: 3, unitPrice: 10, publicPrice: 0}] *)
Definition zeroPublic : ProductItem.t := line 3 10 None (Some 0) None.

(** [{quantity: 3, unitPrice: 10, averagePrice: 0}] *)
Definition zeroAverage : ProductItem.t := line 3 10 (Some 0) None None.

(** Three priced lines, and the same lines in the opposite order. *)
Definition lineA : ProductItem.t := line 1 0.8 (Some 1.0) (Some 1.5) None.
Definition lineB : ProductItem.t :=
  lineOf "Medix" 2 9.99 (Some 10.49) (Some 12.99) None.
Definition lineC : ProductItem.t := line 3 0.9 (Some 1.0) (Some 1.2) None.
Definition order : list ProductItem.t := [lineA; lineB; lineC].
Definition reordered : list ProductItem.t := [lineC; lineB; lineA].

(** Three lines whose savings are 0.10, -0.20 and 0.10, in two orders. *)
Definition dearer : ProductItem.t := line 2 0.55 (Some 0.45) None None.
Definition cheaper : ProductItem.t := line 1 1.15 (Some 1.25) None None.
Definition cheapest : ProductItem.t := line 1 0.05 (Some 0.15) None None.
Definition balanced : list ProductItem.t := [cheaper; dearer; cheapest].
Definition rebalanced : list ProductItem.t := [cheaper; cheapest; dearer].

(** The integer an ordered quantity of 1, 2 or 3 units stands for. *)
Definition units (p : ProductItem.t) : Z :=
  if ProductItem.quantity p =? 1 then 1%Z
  else if ProductItem.quantity p =? 2 then 2%Z
  else 3%Z.

End Samples.

(** ** ProductRow: what one product line renders

    The figures of [PriceMath] are shown under conditions written in the JSX.
    An expression container [{x && e}] renders [e] when [x] is truthy; when
    [x] is [undefined] or [false] it renders nothing, and when [x] is a falsy
    number (0 or NaN) React renders that number as text.  The formatting of
    the numbers ([toFixed]) is not modelled: a slot holds the numbers shown. *)

Module ProductRow.
Import ProductItem PriceMath.
Local Open Scope float_scope.

Inductive Slot (A : Type) : Type :=
| Nothing
| NumberText (x : number)
| Content (a : A).

Arguments Nothing {A}.
Arguments NumberText {A} x.
Arguments Content {A} a.

(** [{x && e}] for [x : number | undefined]. *)
Definition whenNumber {A : Type} (x : option number) (e : A) : Slot A :=
  match x with
  | None => Nothing
  | Some n => if truthy n then Content e else NumberText n
  end.

(** [{b && e}] for a boolean [b]. *)
Definition whenTrue {A : Type} (b : bool) (e : A) : Slot A :=
  if b then Content e else Nothing.

(** [x !== y] on numbers. *)
Definition strictNotEqual (x y : number) : bool := negb (x =? y).

(** The chips under the product name: the discount chip and, inside it, the
    VAT chip ([{product.publicPrice && (... {product.vat && ...})}]). *)
Definition previewChips (product : ProductItem.t) : Slot (number * Slot number) :=
  whenNumber (publicPrice product)
    (grossDiscountPercent product,
     whenNumber (vat product) (ToNumber (vat product))).

(** The "Avg:" caption under the unit price:
    [{product.averagePrice && product.averagePrice !== product.unitPrice && ...}]. *)
Definition averageCaption (product : ProductItem.t) : Slot number :=
  match averagePrice product with
  | None => Nothing
  | Some ap =>
      if truthy ap
      then whenTrue (strictNotEqual ap (unitPrice product)) ap
      else NumberText ap
  end.

(** The "Save:" caption under the line total: [{savingsVsAverage > 0 && ...}]. *)
Definition saveCaption (product : ProductItem.t) : Slot number :=
  whenTrue (0 <? savingsVsAverage product) (savingsVsAverage product).

(** The two public-price cells of the details: VAT included and, inside,
    VAT excluded. *)
Definition publicPriceCells (product : ProductItem.t) : Slot (number * Slot number) :=
  whenNumber (publicPrice product)
    (ToNumber (publicPrice product),
     whenNumber (vat product) (netPublicPrice product)).

(** The discount cells of the details: the gross one and, inside, the net
    one ([{grossDiscount > 0 && (... {netDiscount > 0 && ...})}]). *)
Definition discountCells (product : ProductItem.t)
    : Slot ((number * number) * Slot (number * number)) :=
  whenTrue (0 <? grossDiscount product)
    ((grossDiscount product, grossDiscountPercent product),
     whenTrue (0 <? netDiscount product)
       (netDiscount product, netDiscountPercent product)).

Inductive Colour : Type := successMain | errorMain.

(** The "Savings vs Average" cell of the details and its colour. *)
Definition savingsCell (product : ProductItem.t) : Slot (number * Colour) :=
  whenNumber (averagePrice product)
    (savingsVsAverage product,
     if 0 <? savingsVsAverage product then successMain else errorMain).

(** The "Average Purchase Price" footer of the details. *)
Definition averageFooter (product : ProductItem.t) : Slot number :=
  whenNumber (averagePrice product) (ToNumber (averagePrice product)).

(** *** The [expanded] state of a line

    [ProductRow] is declared inside the body of the modal, so every render
    of the modal makes a new component type: React unmounts the lines and
    mounts them again, and their state starts from [useState(false)].  The
    three buttons of a line set the state of the line only, which renders
    the line and not the modal. *)

Inductive RowEvent : Type :=
| RowClick      (* the summary row: [!expanded && setExpanded(true)] *)
| ToggleClick   (* the arrow button: [setExpanded(!expanded)] *)
| CloseClick    (* the "Close" button of the details: [setExpanded(false)] *)
| ModalRender.  (* the modal renders again: the line is mounted anew *)

Definition step (e : RowEvent) (expanded : bool) : bool :=
  match e with
  | RowClick => if negb expanded then true else expanded
  | ToggleClick => negb expanded
  | CloseClick => false
  | ModalRender => false
  end.

Definition run (events : list RowEvent) (expanded : bool) : bool :=
  fold_left (fun s e => step e s) events expanded.

(** *** The table of price tiers *)

Inductive Cell : Type :=
| CText (s : jsstring)
| CNumber (x : number)
| CPrice (x : number) (best : bool).

Record TierRow : Type := mkTierRow {
  striped : bool;
  cells : list Cell
}.

(** [const isAdmin = userRole === 'Admin'] *)
Definition isAdmin (userRole : jsstring) : bool :=
  bool_decide (userRole = str "Admin").

(** The [userRole] the component works with: the prop, or ['Buyer'] when the
    prop is not given. *)
Definition effectiveRole (prop : option jsstring) : jsstring :=
  match prop with
  | Some role => role
  | None => str "Buyer"
  end.

Definition tierHeader (admin : bool) : list Cell :=
  [CText (str "Qty"); CText (str "Unit Price"); CText (str "Available")]
  ++ (if admin then [CText (str "Supplier")] else []).

(** The row of the tier at index [idx]: odd rows are striped ([idx % 2]) and
    the price of the first tier is highlighted ([idx === 0]). *)
Definition tierRow (admin : bool) (idx : nat) (breakdown : PriceBreakdown.t) : TierRow :=
  {| striped := Nat.odd idx;
     cells :=
       [CNumber (PriceBreakdown.quantity breakdown);
        CPrice (PriceBreakdown.unitPrice breakdown) (Nat.eqb idx 0);
        CNumber (PriceBreakdown.stock breakdown)]
       ++ (if admin then [CText (PriceBreakdown.supplier breakdown)] else []) |}.

(** [product.priceBreakdowns?.map((breakdown, idx) => ...)] *)
Definition tierRows (admin : bool) (product : ProductItem.t) : list TierRow :=
  match priceBreakdowns product with
  | None => []
  | Some tiers => imap (tierRow admin) tiers
  end.

(** The same tier under another supplier name. *)
Definition withSupplier (s : jsstring) (b : PriceBreakdown.t) : PriceBreakdown.t :=
  PriceBreakdown.mk (PriceBreakdown.quantity b) (PriceBreakdown.unitPrice b) s
    (PriceBreakdown.stock b).

End ProductRow.

(** ** The session of the form: sequences of events and the four actions *)

Module OrderFormSession.
Import OrderFormState.

(** The state after a sequence of input events. *)
Definition run (events : list InputEvent) (orderData : OrderData) : OrderData :=
  fold_left (fun s e => dispatch e s) events orderData.

(** The value the last event that targets [field] writes, if any does. *)
Definition lastWritten (field : string) (events : list InputEvent) : option value :=
  fold_left
    (fun acc e => if decide (target e = field) then Some (written e) else acc)
    events None.

(** The values of the radio buttons and of the menu items of the JSX. *)
Definition priorities : list jsstring :=
  [str "standard"; str "urgent"; str "scheduled"].

Definition paymentMethods : list jsstring :=
  [str "Invoice 30 days"; str "Invoice 60 days"; str "Credit Card";
   str "Bank Transfer"].

(** The events the rendered controls raise: the names are the [name]
    attributes of the JSX, a radio value is the [value] of one of the three
    radio buttons and a select value that of one of the four menu items. *)
Definition rendered (e : InputEvent) : Prop :=
  match e with
  | TextChange name _ =>
      name = "orderName" \/ name = "expectedDeliveryDate" \/ name = "notes"
  | CheckboxToggle name _ => name = "saveAsTemplate" \/ name = "notifyOnDelivery"
  | SelectChange name v => name = "paymentMethod" /\ In v paymentMethods
  | RadioChoice v => In v priorities
  end.

(** An object of the shape the [OrderData] interface declares. *)
Definition wellFormed (orderData : OrderData) : Prop :=
  dom orderData
  = ({["orderName"; "expectedDeliveryDate"; "notes"; "priority";
       "paymentMethod"; "saveAsTemplate"; "notifyOnDelivery"]} : gset string)
  /\ (exists s, orderData !! "orderName" = Some (VStr s))
  /\ (exists s, orderData !! "expectedDeliveryDate" = Some (VStr s))
  /\ (exists s, orderData !! "notes" = Some (VStr s))
  /\ (exists s, orderData !! "priority" = Some (VStr s) /\ In s priorities)
  /\ (exists s, orderData !! "paymentMethod" = Some (VStr s) /\ In s paymentMethods)
  /\ (exists b, orderData !! "saveAsTemplate" = Some (VBool b))
  /\ (exists b, orderData !! "notifyOnDelivery" = Some (VBool b)).

(** The name typed last into the "Order Name" field, [''] when none was. *)
Definition typedName (events : list InputEvent) : jsstring :=
  match lastWritten "orderName" events with
  | Some (VStr s) => s
  | _ => []
  end.



End OrderFormSession.

(** ** The modal and one of its lines

    The form state lives in the modal: every input event calls
    [setOrderData] with a new object, so the modal renders again and the
    lines are mounted anew.  The events of a line leave [orderData] alone. *)

Module ModalSession.
Import OrderFormState.

Inductive UIEvent : Type :=
| FormInput (e : InputEvent)
| LineEvent (e : ProductRow.RowEvent).

(** The state: [orderData] and the [expanded] flag of one line. *)
Definition State : Type := (OrderData * bool)%type.

Definition step (u : UIEvent) (s : State) : State :=
  match u with
  | FormInput e => (dispatch e (fst s), ProductRow.step ProductRow.ModalRender (snd s))
  | LineEvent e => (fst s, ProductRow.step e (snd s))
  end.

Definition run (events : list UIEvent) (s : State) : State :=
  fold_left (fun s u => step u s) events s.

End ModalSession.

(** ** TableRow: the generic row of [TableRow.tsx]

    The [className] attributes are template literals; they are modelled by
    the list of the class tokens the browser reads from them, segment by
    segment.  An interpolated [false] is the token ["false"]. *)

Module TableRow.

Inductive Align : Type := alignLeft | alignCenter | alignRight.

(** [TableCellProps]; [content] is an opaque React node. *)
Record TableCellProps (Node : Type) : Type := mkCell {
  content : Node;
  width : list string;
  align : option Align;
  tooltip : option jsstring;
  customClasses : option (list string)
}.

Arguments mkCell {Node}.
Arguments content {Node}.
Arguments width {Node}.
Arguments align {Node}.
Arguments tooltip {Node}.
Arguments customClasses {Node}.

(** [TableRowProps] after the defaults of the destructuring ([false] for the
    flags, [''] for [warningMessage]); [onClick] is an opaque handler. *)
Record TableRowProps (Node Handler : Type) : Type := mkRow {
  rowCells : list (TableCellProps Node);
  onClick : option Handler;
  isHighlighted : bool;
  isSelected : bool;
  isLast : bool;
  hasWarning : bool;
  warningMessage : jsstring
}.

Arguments mkRow {Node Handler}.
Arguments rowCells {Node Handler}.
Arguments onClick {Node Handler}.
Arguments isHighlighted {Node Handler}.
Arguments isSelected {Node Handler}.
Arguments isLast {Node Handler}.
Arguments hasWarning {Node Handler}.
Arguments warningMessage {Node Handler}.

(** The class tokens of the row. *)
Definition rowClasses {Node Handler : Type} (p : TableRowProps Node Handler)
    : list string :=
  ["flex"; "items-center"; "px-3"; "py-3"; "border-b"; "border-gray-100";
   "dark:border-dark-border-primary"]
  ++ (if isLast p then ["rounded-b-lg"] else [])
  ++ (if isSelected p then ["bg-blue-50"; "dark:bg-blue-900/20"] else [])
  ++ (if hasWarning p
      then ["bg-amber-50"; "dark:bg-amber-900/20"; "border-l-4";
            "border-l-amber-500"; "dark:border-l-amber-400"]
      else [])
  ++ (if negb (isSelected p) && negb (hasWarning p)
      then (if isHighlighted p
            then ["bg-blue-50/50"; "dark:bg-blue-900/10"]
            else ["hover:bg-blue-50/80"; "dark:hover:bg-blue-900/20"])
      else ["false"])
  ++ ["transition-colors"; "duration-150"]
  ++ (match onClick p with Some _ => ["cursor-pointer"] | None => [] end)
  ++ ["relative"; "rounded-xl"; "my-1"; "bg-white"; "dark:bg-dark-bg-secondary"].

(** The class tokens of a cell:
    [`${cell.width} ${...align...} ${cell.customClasses || ''}`]. *)
Definition cellClasses {Node : Type} (cell : TableCellProps Node) : list string :=
  width cell
  ++ match align cell with
     | Some alignCenter => ["text-center"]
     | Some alignRight => ["text-right"]
     | _ => []
     end
  ++ match customClasses cell with
     | Some tokens => tokens
     | None => []
     end.

(** The child of a cell: the content, inside a [Tooltip] when [cell.tooltip]
    is truthy. *)
Inductive Child (Node : Type) : Type :=
| Bare (node : Node)
| InTooltip (text : jsstring) (node : Node).

Arguments Bare {Node}.
Arguments InTooltip {Node}.

Definition cellChild {Node : Type} (cell : TableCellProps Node) : Child Node :=
  match tooltip cell with
  | Some (c :: t) => InTooltip (c :: t) (content cell)
  | _ => Bare (content cell)
  end.

Record RenderedCell (Node : Type) : Type := mkRendered {
  key : nat;
  classes : list string;
  child : Child Node
}.

Arguments mkRendered {Node}.
Arguments key {Node}.
Arguments classes {Node}.
Arguments child {Node}.

Record RenderedRow (Node Handler : Type) : Type := mkRenderedRow {
  className : list string;
  clickHandler : option Handler;
  children : list (RenderedCell Node)
}.

Arguments mkRenderedRow {Node Handler}.
Arguments className {Node Handler}.
Arguments clickHandler {Node Handler}.
Arguments children {Node Handler}.

(** The component. *)
Definition render {Node Handler : Type} (p : TableRowProps Node Handler)
    : RenderedRow Node Handler :=
  {| className := rowClasses p;
     clickHandler := onClick p;
     children :=
       imap (fun index cell => mkRendered index (cellClasses cell) (cellChild cell))
         (rowCells p) |}.

End TableRow.

(** ** The sign of a number against zero *)

Module Sign.

(** The numbers [x] for which [x > 0] is false: NaN, the two zeros,
    [-Infinity] and the negative numbers. *)
Definition notPositive (x : spec_float) : bool :=
  match x with
  | S754_nan | S754_zero _ => true
  | S754_infinity s | S754_finite s _ _ => s
  end.

(** The numbers with a clear sign bit: [+0], [+Infinity] and the positive
    numbers. *)
Definition signClear (x : spec_float) : bool :=
  match x with
  | S754_nan => false
  | S754_zero s | S754_infinity s | S754_finite s _ _ => negb s
  end.

End Sign.

(** ** Sample inputs of the rows and of the form *)

Module MoreSamples.
Import OrderFormState.
Local Open Scope float_scope.

(** Two price tiers of two suppliers. *)
Definition tiers : list PriceBreakdown.t :=
  [PriceBreakdown.mk 10 9.99 (str "Medix") 120;
   PriceBreakdown.mk 50 10.25 (str "ACME") 40].

(** The same tiers with the supplier names blanked. *)
Definition blankedTiers : list PriceBreakdown.t :=
  List.map (ProductRow.withSupplier (str "-")) tiers.

Definition tieredOf (l : list PriceBreakdown.t) : ProductItem.t :=
  ProductItem.mk (str "p-2") (str "Gloves") (str "GL-20") (str "Medix")
    2 9.99 (Some l) (Some 10.49) (Some 12.99) (Some 22).

Definition tiered : ProductItem.t := tieredOf tiers.
Definition blanked : ProductItem.t := tieredOf blankedTiers.

(** A session of the form: a name typed in two steps, a box ticked, a radio
    button and a menu item chosen. *)
Definition typing : list InputEvent :=
  [TextChange "orderName" (str "PO-4");
   CheckboxToggle "saveAsTemplate" true;
   TextChange "orderName" (str "PO-42");
   RadioChoice (str "standard");
   SelectChange "paymentMethod" (str "Credit Card")].

(** A session in which the name field is never touched. *)
Definition unnamed : list InputEvent :=
  [TextChange "notes" (str "leave at the gate");
   CheckboxToggle "notifyOnDelivery" false].

(** The form after three spaces were typed into the "Order Name" field. *)
Definition blankName : OrderData :=
  handleChange "orderName" (str "   ") (initialOrderData (str "2026-01-15")).

(** Two lines without an average price. *)
Definition unpriced : list ProductItem.t := [Samples.plain; Samples.listed].

(** A row of two cells, the second with a tooltip, and a click handler. *)
Definition cells : list (TableRow.TableCellProps string) :=
  [TableRow.mkCell "Gauze" ["w-1/2"] None None None;
   TableRow.mkCell "12.50" ["w-1/4"] (Some TableRow.alignRight)
     (Some (str "VAT excluded")) (Some ["font-medium"])].

End MoreSamples.

(** * Properties *)

(** ** Truthiness of numbers *)

Section Truthiness.
Local Open Scope float_scope.

Lemma truthy_zero (x : number) : (x =? 0) = true -> truthy x = false.
Proof. intros H. unfold truthy. now rewrite H. Qed.

Lemma truthy_true (x : number) :
  truthy x = true <-> (x =? 0) = false /\ is_nan x = false.
Proof.
  unfold truthy. rewrite negb_true_iff, orb_false_iff. tauto.
Qed.

Lemma truthy_false (x : number) :
  truthy x = false <-> (x =? 0) = true \/ is_nan x = true.
Proof.
  unfold truthy. rewrite negb_false_iff, orb_true_iff. tauto.
Qed.

End Truthiness.

(** ** Integers in binary64 arithmetic

    The sum of two non-negative integers is computed exactly as long as it
    stays below [2^53].  The proof follows the specification of the primitive
    addition: both mantissas are aligned on the smaller exponent, added, and
    the sum is rounded back to 53 bits, which drops zero bits only. *)

Section IntegerSums.
Import Binary64.
Local Open Scope Z_scope.

Lemma shl_S (q : positive) (k : nat) : shl q (S k) = xO (shl q k).
Proof. reflexivity. Qed.

Lemma shl_shl (q : positive) (j k : nat) : shl (shl q j) k = shl q (k + j).
Proof. unfold shl. now rewrite Nat.iter_add. Qed.

Lemma shl_plus (a b : positive) (k : nat) :
  (shl a k + shl b k)%positive = shl (a + b) k.
Proof.
  induction k as [|k IH]; [reflexivity|].
  rewrite !shl_S.
  change ((shl a k)~0 + (shl b k)~0)%positive with ((shl a k + shl b k)~0)%positive.
  now rewrite IH.
Qed.

Lemma pos_iter_shl (q d : positive) : Pos.iter xO q d = shl q (Pos.to_nat d).
Proof. unfold shl. apply Pos2Nat.inj_iter. Qed.

Lemma digits_shl (q : positive) (k : nat) :
  Z.pos (digits2_pos (shl q k)) = Z.pos (digits2_pos q) + Z.of_nat k.
Proof.
  induction k as [|k IH].
  - simpl. lia.
  - rewrite shl_S. simpl digits2_pos. rewrite Pos2Z.inj_succ, IH. lia.
Qed.

Lemma digits2_pos_size (q : positive) : digits2_pos q = Pos.size q.
Proof. induction q; simpl; congruence. Qed.

Lemma digits_bound (q : positive) :
  Z.pos q < 2 ^ prec -> Z.pos (digits2_pos q) <= prec.
Proof.
  intros Hq. rewrite digits2_pos_size.
  pose proof (Pos.size_le q) as Hle.
  apply Pos2Z.pos_le_pos in Hle.
  rewrite Pos2Z.inj_pow, (Pos2Z.inj_xO q) in Hle.
  destruct (Z.le_gt_cases (Z.pos (Pos.size q)) prec) as [Hok|Hbad]; [exact Hok|].
  exfalso.
  assert (Hpow : 2 ^ (prec + 1) <= 2 ^ Z.pos (Pos.size q))
    by (apply Z.pow_le_mono_r; lia).
  rewrite Z.pow_add_r, Z.pow_1_r in Hpow by (unfold prec; lia).
  lia.
Qed.

(** The iteration of the specification is the iteration on [nat]. *)
Lemma iter_pos_nat {A : Type} (f : A -> A) (p : positive) (x : A) :
  SpecFloat.iter_pos f p x = Nat.iter (Pos.to_nat p) f x.
Proof.
  revert x. induction p as [p IH|p IH|]; intros x; cbn [SpecFloat.iter_pos].
  - rewrite !IH, Pos2Nat.inj_xI.
    replace (S (2 * Pos.to_nat p))%nat
      with (Pos.to_nat p + (Pos.to_nat p + 1))%nat by lia.
    rewrite !Nat.iter_add. reflexivity.
  - rewrite !IH, Pos2Nat.inj_xO.
    replace (2 * Pos.to_nat p)%nat with (Pos.to_nat p + Pos.to_nat p)%nat by lia.
    now rewrite Nat.iter_add.
  - reflexivity.
Qed.

(** Shifting right over appended zero bits loses nothing. *)
Lemma shr_shl (q : positive) (n j : nat) :
  Nat.iter n shr_1
    {| shr_m := Z.pos (shl q (n + j)); shr_r := false; shr_s := false |}
  = {| shr_m := Z.pos (shl q j); shr_r := false; shr_s := false |}.
Proof.
  induction n as [|n IH]; [reflexivity|].
  rewrite Nat.iter_succ_r. exact IH.
Qed.

Lemma fexp_normal (x : Z) : emin <= x - prec -> fexp prec emax x = x - prec.
Proof. unfold fexp. lia. Qed.

Lemma prec_value : prec = 53.
Proof. reflexivity. Qed.

Lemma emax_value : emax = 1024.
Proof. reflexivity. Qed.

Lemma emin_value : emin = -1074.
Proof. reflexivity. Qed.

Lemma binary_round_aux_exact (s : bool) (q : positive) (j n : nat) (e : Z) :
  Z.pos (digits2_pos q) + Z.of_nat j = prec ->
  emin <= e + Z.of_nat n <= emax - prec ->
  binary_round_aux prec emax s (Z.pos (shl q (n + j))) e loc_Exact
  = S754_finite s (shl q j) (e + Z.of_nat n).
Proof.
  intros Hd [Hlo Hhi].
  unfold binary_round_aux, shr_fexp.
  cbn [Zdigits2 shr_record_of_loc].
  rewrite digits_shl.
  rewrite (fexp_normal (Z.pos (digits2_pos q) + Z.of_nat (n + j) + e)) by lia.
  replace (Z.pos (digits2_pos q) + Z.of_nat (n + j) + e - prec - e)
    with (Z.of_nat n) by lia.
  assert (Hshr :
    shr {| shr_m := Z.pos (shl q (n + j)); shr_r := false; shr_s := false |}
      e (Z.of_nat n)
    = ({| shr_m := Z.pos (shl q j); shr_r := false; shr_s := false |},
       e + Z.of_nat n)).
  { destruct n as [|n].
    - simpl. f_equal. lia.
    - unfold shr. change (Z.of_nat (S n)) with (Z.pos (Pos.of_succ_nat n)).
      cbv iota beta. rewrite iter_pos_nat, SuccNat2Pos.id_succ.
      now rewrite shr_shl. }
  rewrite Hshr.
  cbn [shr_m loc_of_shr_record round_nearest_even shr_record_of_loc Zdigits2].
  rewrite digits_shl.
  rewrite (fexp_normal (Z.pos (digits2_pos q) + Z.of_nat j + (e + Z.of_nat n)))
    by lia.
  replace (Z.pos (digits2_pos q) + Z.of_nat j + (e + Z.of_nat n) - prec
           - (e + Z.of_nat n)) with 0 by lia.
  cbn [shr shr_m].
  destruct (Z.leb_spec (e + Z.of_nat n) (emax - prec)); [reflexivity | lia].
Qed.

(** Rounding [q * 2^k * 2^e], where [q] has at most 53 bits, is exact. *)
Lemma binary_round_exact (s : bool) (q : positive) (k : nat) (e : Z) :
  let dq := Z.pos (digits2_pos q) in
  dq <= prec ->
  emin <= dq + e + Z.of_nat k - prec <= emax - prec ->
  binary_round prec emax s (shl q k) e
  = S754_finite s (shl q (Z.to_nat (prec - dq))) (dq + e + Z.of_nat k - prec).
Proof.
  intros dq Hdq [Hlo Hhi].
  unfold binary_round.
  rewrite digits_shl. fold dq.
  rewrite (fexp_normal (dq + Z.of_nat k + e)) by lia.
  unfold shl_align.
  destruct (dq + Z.of_nat k + e - prec - e) as [|d|d] eqn:Hd.
  - replace k with (0 + Z.to_nat (prec - dq))%nat at 1 by lia.
    rewrite binary_round_aux_exact; [f_equal; lia | fold dq; lia | lia].
  - replace k with (Pos.to_nat d + Z.to_nat (prec - dq))%nat at 1 by lia.
    rewrite binary_round_aux_exact; [f_equal; lia | fold dq; lia | lia].
  - rewrite pos_iter_shl, shl_shl.
    replace (Pos.to_nat d + k)%nat with (0 + Z.to_nat (prec - dq))%nat by lia.
    rewrite binary_round_aux_exact; [f_equal; lia | fold dq; lia | lia].
Qed.

Lemma binary_normalize_pos (q : positive) :
  Z.pos q < 2 ^ prec ->
  binary_normalize prec emax (Z.pos q) 0 false = canonical q.
Proof.
  intros Hq. apply digits_bound in Hq.
  unfold binary_normalize. change q with (shl q 0) at 1.
  pose proof prec_value. pose proof emax_value. pose proof emin_value.
  rewrite binary_round_exact; [unfold canonical; f_equal; lia | exact Hq | lia].
Qed.

Lemma shl_align_fst (q : positive) (j : nat) (e ez : Z) :
  ez <= e ->
  fst (shl_align (shl q j) e ez) = shl q (Z.to_nat (e - ez) + j).
Proof.
  intros Hle. unfold shl_align.
  destruct (ez - e) as [|d|d] eqn:Hd; simpl.
  - f_equal. lia.
  - lia.
  - rewrite pos_iter_shl, shl_shl. f_equal. lia.
Qed.

Lemma SFadd_canonical (a b : positive) :
  Z.pos a + Z.pos b < 2 ^ prec ->
  SFadd prec emax (canonical a) (canonical b) = canonical (a + b).
Proof.
  intros Hsum.
  assert (Ha : Z.pos (digits2_pos a) <= prec) by (apply digits_bound; lia).
  assert (Hb : Z.pos (digits2_pos b) <= prec) by (apply digits_bound; lia).
  assert (Hab : Z.pos (digits2_pos (a + b)) <= prec)
    by (apply digits_bound; rewrite Pos2Z.inj_add; lia).
  pose proof prec_value. pose proof emax_value. pose proof emin_value.
  unfold canonical at 1 2. cbn [SFadd].
  set (ea := Z.pos (digits2_pos a) - prec).
  set (eb := Z.pos (digits2_pos b) - prec).
  rewrite !shl_align_fst by lia.
  replace (Z.to_nat (ea - Z.min ea eb)
           + Z.to_nat (prec - Z.pos (digits2_pos a)))%nat
    with (Z.to_nat (- Z.min ea eb)) by lia.
  replace (Z.to_nat (eb - Z.min ea eb)
           + Z.to_nat (prec - Z.pos (digits2_pos b)))%nat
    with (Z.to_nat (- Z.min ea eb)) by lia.
  unfold cond_Zopp. rewrite <- Pos2Z.inj_add, shl_plus. unfold binary_normalize.
  rewrite binary_round_exact; [unfold canonical; f_equal; lia | exact Hab | lia].
Qed.

Lemma Prim2SF_of_int (n : Z) :
  0 <= n < 2 ^ prec ->
  Prim2SF (of_int n) = binary_normalize prec emax n 0 false.
Proof.
  intros Hn. unfold of_int.
  rewrite of_uint63_spec, Uint63.of_Z_spec, Z.mod_small; [reflexivity|].
  assert (2 ^ prec < Uint63.wB) by reflexivity. lia.
Qed.

(** Adding two non-negative integers is exact below [2^53]. *)
Lemma of_int_add (a b : Z) :
  0 <= a -> 0 <= b -> a + b < 2 ^ prec ->
  (of_int a + of_int b)%float = of_int (a + b).
Proof.
  intros Ha Hb Hab. apply Prim2SF_inj.
  rewrite FloatAxioms.add_spec, !Prim2SF_of_int by lia.
  unfold SF64add.
  destruct a as [|a|a]; [|destruct b as [|b|b]|]; try lia.
  - destruct b as [|b|b]; try lia; [reflexivity|].
    change (0 + Z.pos b) with (Z.pos b).
    rewrite binary_normalize_pos by lia. reflexivity.
  - rewrite Z.add_0_r, binary_normalize_pos by lia. reflexivity.
  - rewrite (binary_normalize_pos a), (binary_normalize_pos b) by lia.
    rewrite SFadd_canonical by lia.
    change (Z.pos a + Z.pos b) with (Z.pos (a + b)).
    rewrite binary_normalize_pos; [reflexivity | rewrite Pos2Z.inj_add; lia].
Qed.

Lemma sum_nonneg (ns : list Z) :
  Forall (fun n => 0 <= n) ns -> 0 <= fold_right Z.add 0 ns.
Proof. induction 1; simpl; lia. Qed.

Lemma fold_add_ints (ns : list Z) (acc : Z) :
  Forall (fun n => 0 <= n) ns ->
  0 <= acc ->
  acc + fold_right Z.add 0 ns < 2 ^ prec ->
  fold_left PrimFloat.add (List.map of_int ns) (of_int acc)
  = of_int (acc + fold_right Z.add 0 ns).
Proof.
  intros Hns. revert acc.
  induction Hns as [|n ns Hn Hns IH]; intros acc Hacc Hsum;
    cbn [fold_left fold_right List.map] in *.
  - now rewrite Z.add_0_r.
  - pose proof (sum_nonneg ns Hns).
    rewrite of_int_add by lia.
    rewrite IH by lia. f_equal. lia.
Qed.

Lemma sum_permutation (ns ns' : list Z) :
  Permutation ns ns' -> fold_right Z.add 0 ns = fold_right Z.add 0 ns'.
Proof. induction 1; simpl; lia. Qed.

End IntegerSums.

(** ** The negative zero in binary64 sums

    [x + 0] is [x] unless [x] is [-0] (then it is [+0]), and a sum is [-0]
    only when both of its terms are: the exact sum of two numbers of
    opposite signs is [+0], and a sum of representable numbers does not
    underflow. *)

Section NegativeZero.
Local Open Scope Z_scope.

(** Shifting a positive mantissa right by fewer bits than it has leaves a
    positive mantissa. *)
Lemma shr_keeps_positive (n : nat) (m : positive) (r s : bool) :
  Z.of_nat n < Z.pos (digits2_pos m) ->
  exists m' : positive,
    shr_m (Nat.iter n shr_1 {| shr_m := Z.pos m; shr_r := r; shr_s := s |})
    = Z.pos m'.
Proof.
  revert m r s. induction n as [|n IH]; intros m r s Hn.
  - now exists m.
  - rewrite Nat.iter_succ_r.
    destruct m as [m|m|]; cbn [shr_1 digits2_pos] in *.
    + apply IH. lia.
    + apply IH. lia.
    + lia.
Qed.

Lemma shr_fexp_positive (m : positive) (e : Z) (l : location) :
  emin <= e ->
  exists m' : positive,
    shr_m (fst (shr_fexp prec emax (Z.pos m) e l)) = Z.pos m'
    /\ emin <= snd (shr_fexp prec emax (Z.pos m) e l).
Proof.
  intros He. unfold shr_fexp, shr. cbn [Zdigits2].
  pose proof prec_value as Hprec.
  assert (Hrec : exists r s : bool,
             shr_record_of_loc (Z.pos m) l
             = {| shr_m := Z.pos m; shr_r := r; shr_s := s |})
    by (destruct l as [|[| |]]; simpl; eauto).
  destruct Hrec as (r & s & ->).
  destruct (fexp prec emax (Z.pos (digits2_pos m) + e) - e) as [|n|n] eqn:Hn;
    cbn [fst snd].
  - exists m. split; [reflexivity | exact He].
  - rewrite iter_pos_nat.
    destruct (shr_keeps_positive (Pos.to_nat n) m r s) as [m' Hm'].
    + unfold fexp in Hn. lia.
    + exists m'. split; [exact Hm'|]. unfold fexp in Hn. lia.
  - exists m. split; [reflexivity | exact He].
Qed.

Lemma round_nearest_even_positive (m : positive) (l : location) :
  exists m' : positive, round_nearest_even (Z.pos m) l = Z.pos m'.
Proof.
  assert (Hsucc : Z.pos m + 1 = Z.pos (m + 1)) by reflexivity.
  destruct l as [|[| |]]; cbn [round_nearest_even]; eauto.
  destruct (Z.even (Z.pos m)); eauto.
Qed.

(** Rounding a positive mantissa whose exponent is not below [emin] gives a
    finite number or an infinity, never a zero. *)
Lemma binary_round_aux_nonzero (s : bool) (m : positive) (e : Z) (l : location) :
  emin <= e ->
  forall s' : bool, binary_round_aux prec emax s (Z.pos m) e l <> S754_zero s'.
Proof.
  intros He s'. unfold binary_round_aux.
  destruct (shr_fexp_positive m e l He) as (m1 & Hm1 & He1).
  destruct (shr_fexp prec emax (Z.pos m) e l) as [mrs1 e1]. cbn [fst snd] in *.
  rewrite Hm1.
  destruct (round_nearest_even_positive m1 (loc_of_shr_record mrs1)) as [m2 ->].
  destruct (shr_fexp_positive m2 e1 loc_Exact He1) as (m3 & Hm3 & _).
  destruct (shr_fexp prec emax (Z.pos m2) e1 loc_Exact) as [mrs3 e3].
  cbn [fst] in Hm3. rewrite Hm3.
  now destruct (e3 <=? emax - prec).
Qed.

Lemma binary_round_nonzero (s : bool) (m : positive) (e : Z) :
  emin <= e ->
  forall s' : bool, binary_round prec emax s m e <> S754_zero s'.
Proof.
  intros He s'. unfold binary_round, shl_align.
  destruct (fexp prec emax (Z.pos (digits2_pos m) + e) - e) as [|d|d] eqn:Hd;
    apply binary_round_aux_nonzero; try exact He.
  unfold fexp. lia.
Qed.

Lemma valid_exponent (s : bool) (m : positive) (e : Z) :
  valid_binary (S754_finite s m e) = true -> emin <= e.
Proof.
  unfold SpecFloat.valid_binary, bounded, canonical_mantissa.
  intros H. apply andb_prop in H. destruct H as [H _].
  apply Z.eqb_eq in H. unfold fexp in H. lia.
Qed.

(** A sum is the negative zero only when both terms are. *)
Lemma SFadd_neg_zero (x y : spec_float) :
  valid_binary x = true -> valid_binary y = true ->
  SFadd prec emax x y = S754_zero true ->
  x = S754_zero true /\ y = S754_zero true.
Proof.
  intros Hx Hy.
  destruct x as [sx|sx| |sx mx ex], y as [sy|sy| |sy my ey]; simpl;
    try discriminate; try (destruct sx, sy; (discriminate || tauto)).
  intros H. exfalso. revert H.
  apply valid_exponent in Hx, Hy.
  unfold binary_normalize.
  destruct (cond_Zopp sx (Z.pos (shl_align mx ex (ex `min` ey)).1)
            + cond_Zopp sy (Z.pos (shl_align my ey (ex `min` ey)).1));
    [discriminate | |]; apply binary_round_nonzero; lia.
Qed.

Lemma add_not_neg_zero (x t : number) :
  Prim2SF x <> S754_zero true -> Prim2SF (x + t)%float <> S754_zero true.
Proof.
  intros Hx H. rewrite FloatAxioms.add_spec in H.
  apply SFadd_neg_zero in H; try apply Prim2SF_valid. tauto.
Qed.

Lemma add_zero_r (x : number) :
  Prim2SF x <> S754_zero true -> (x + 0)%float = x.
Proof.
  intros Hx. apply Prim2SF_inj. rewrite FloatAxioms.add_spec.
  change (Prim2SF 0) with (S754_zero false). unfold SF64add.
  destruct (Prim2SF x) as [[|]| | |]; simpl; congruence.
Qed.

End NegativeZero.

(** ** NaN in binary64 quotients

    A difference of finite numbers, and a quotient or a product by a finite
    number that is not zero, is never NaN (it can be an infinity, by
    overflow): rounding acts on a mantissa that is not negative. *)

Section NotNaN.
Import Binary64.
Local Open Scope Z_scope.

Lemma is_nan_spec (x : number) : is_nan x = true <-> Prim2SF x = S754_nan.
Proof.
  unfold is_nan. rewrite FloatAxioms.eqb_spec. unfold SFeqb.
  destruct (Prim2SF x) as [s|s| |s m e]; simpl.
  - split; discriminate.
  - destruct s; split; discriminate.
  - split; reflexivity.
  - rewrite Z.compare_refl, Pos.compare_cont_refl.
    destruct s; split; discriminate.
Qed.

Lemma is_infinity_spec (x : number) :
  is_infinity x = true <-> exists s : bool, Prim2SF x = S754_infinity s.
Proof.
  unfold is_infinity. rewrite FloatAxioms.eqb_spec, FloatAxioms.abs_spec.
  change (Prim2SF infinity) with (S754_infinity false). unfold SFeqb.
  destruct (Prim2SF x) as [s|s| |s m e]; simpl; split;
    try discriminate; try (intros [s' [=]]); eauto.
Qed.

Lemma isFinite_spec (x : number) : isFinite x = true <-> SFfinite (Prim2SF x).
Proof.
  unfold isFinite. rewrite negb_true_iff, orb_false_iff.
  rewrite <- !not_true_iff_false, is_nan_spec, is_infinity_spec.
  split.
  - intros [Hnan Hinf].
    destruct (Prim2SF x) as [s|s| |s m e]; simpl; try exact I.
    + apply Hinf. eauto.
    + now apply Hnan.
  - intros Hfin.
    destruct (Prim2SF x) as [s|s| |s m e]; simpl in Hfin; try tauto;
      (split; [discriminate | intros [s' [=]]]).
Qed.

Lemma shr_1_nonneg (mrs : shr_record) : 0 <= shr_m mrs -> 0 <= shr_m (shr_1 mrs).
Proof.
  destruct mrs as [m r s]. cbn [shr_m]. intros Hm.
  destruct m as [|[p|p|]|p]; cbn [shr_1 shr_m]; lia.
Qed.

Lemma iter_shr_nonneg (n : nat) (mrs : shr_record) :
  0 <= shr_m mrs -> 0 <= shr_m (Nat.iter n shr_1 mrs).
Proof.
  intros Hm. induction n as [|n IH]; [exact Hm|].
  rewrite Nat.iter_succ. now apply shr_1_nonneg.
Qed.

Lemma shr_fexp_nonneg (m e : Z) (l : location) :
  0 <= m -> 0 <= shr_m (fst (shr_fexp prec emax m e l)).
Proof.
  intros Hm. unfold shr_fexp, shr.
  assert (Hrec : 0 <= shr_m (shr_record_of_loc m l))
    by (destruct l as [|[| |]]; exact Hm).
  destruct (fexp prec emax (Zdigits2 m + e) - e) as [|n|n]; cbn [fst];
    try exact Hrec.
  rewrite iter_pos_nat. now apply iter_shr_nonneg.
Qed.

Lemma round_nearest_even_nonneg (m : Z) (l : location) :
  0 <= m -> 0 <= round_nearest_even m l.
Proof.
  intros Hm. destruct l as [|[| |]]; cbn [round_nearest_even]; try lia.
  destruct (Z.even m); lia.
Qed.

Lemma binary_round_aux_not_nan (s : bool) (m e : Z) (l : location) :
  0 <= m -> binary_round_aux prec emax s m e l <> S754_nan.
Proof.
  intros Hm. unfold binary_round_aux.
  pose proof (shr_fexp_nonneg m e l Hm) as H1.
  destruct (shr_fexp prec emax m e l) as [mrs1 e1]. cbn [fst] in H1.
  pose proof (shr_fexp_nonneg _ e1 loc_Exact
                (round_nearest_even_nonneg _ (loc_of_shr_record mrs1) H1)) as H2.
  destruct (shr_fexp prec emax _ e1 loc_Exact) as [mrs2 e2]. cbn [fst] in H2.
  destruct (shr_m mrs2) as [|p|p]; [discriminate | | lia].
  now destruct (e2 <=? emax - prec).
Qed.

Lemma binary_normalize_not_nan (m e : Z) (sz : bool) :
  binary_normalize prec emax m e sz <> S754_nan.
Proof.
  unfold binary_normalize, binary_round.
  destruct m as [|p|p]; [discriminate | |];
    destruct (shl_align p e _) as [mz ez]; now apply binary_round_aux_not_nan.
Qed.

Lemma SFsub_not_nan (x y : spec_float) :
  SFfinite x -> SFfinite y -> SFsub prec emax x y <> S754_nan.
Proof.
  destruct x as [sx|sx| |sx mx ex], y as [sy|sy| |sy my ey]; simpl; try tauto;
    intros _ _; try discriminate.
  - now destruct sx, sy.
  - apply binary_normalize_not_nan.
Qed.

Lemma SFdiv_not_nan (x : spec_float) (sy : bool) (my : positive) (ey : Z) :
  x <> S754_nan -> SFdiv prec emax x (S754_finite sy my ey) <> S754_nan.
Proof.
  destruct x as [sx|sx| |sx mx ex]; simpl; try discriminate; [tauto|].
  intros _. unfold SFdiv_core_binary.
  set (m' := match _ with Z.pos _ => _ | _ => _ end).
  assert (Hm' : 0 <= m').
  { subst m'. destruct (_ - _ - _) as [|p|p]; try lia.
    apply Z.shiftl_nonneg. lia. }
  pose proof (Z.div_pos m' (Z.pos my) Hm' ltac:(lia)) as Hq.
  unfold Z.div in Hq.
  destruct (Z.div_eucl m' (Z.pos my)) as [q r]. cbn [fst] in Hq.
  now apply binary_round_aux_not_nan.
Qed.

Lemma SFmul_not_nan (x : spec_float) (sy : bool) (my : positive) (ey : Z) :
  x <> S754_nan -> SFmul prec emax x (S754_finite sy my ey) <> S754_nan.
Proof.
  destruct x as [sx|sx| |sx mx ex]; simpl; try discriminate; [tauto|].
  intros _. apply binary_round_aux_not_nan. lia.
Qed.

Lemma truthy_finite (x : number) :
  truthy x = true -> isFinite x = true ->
  exists (s : bool) (m : positive) (e : Z), Prim2SF x = S754_finite s m e.
Proof.
  unfold truthy. rewrite negb_true_iff, orb_false_iff.
  intros [Hz _] Hf. apply isFinite_spec in Hf.
  rewrite FloatAxioms.eqb_spec in Hz.
  change (Prim2SF 0) with (S754_zero false) in Hz.
  destruct (Prim2SF x) as [s|s| |s m e]; simpl in *; try tauto;
    [discriminate | eauto].
Qed.

(** [(v - u) / v * 100] is not NaN when [v] is finite and not zero and [u]
    is finite. *)
Lemma percent_not_nan (v u : number) :
  truthy v = true -> isFinite v = true -> isFinite u = true ->
  is_nan (((v - u) / v) * 100)%float = false.
Proof.
  intros Hv Hfv Hfu.
  destruct (truthy_finite v Hv Hfv) as (s & m & e & Hsf).
  assert (H100 : exists (s' : bool) (m' : positive) (e' : Z),
             Prim2SF 100 = S754_finite s' m' e') by (vm_compute; eauto).
  destruct H100 as (s' & m' & e' & H100).
  apply isFinite_spec in Hfv, Hfu.
  apply not_true_iff_false. rewrite is_nan_spec.
  rewrite FloatAxioms.mul_spec, H100. apply SFmul_not_nan.
  rewrite FloatAxioms.div_spec, Hsf. apply SFdiv_not_nan.
  rewrite FloatAxioms.sub_spec. now apply SFsub_not_nan.
Qed.

End NotNaN.

(** ** PriceMath *)

Section PriceMathFacts.
Import ProductItem PriceMath.
Local Open Scope float_scope.

(** C5. For the product [{quantity: 3, unitPrice: 10, publicPrice: 15,
    vat: 20}], whatever its other fields, the derived figures are
    grossDiscount = 5, grossDiscountPercent = 33.333333333333329 (which is
    33.33 to within half a cent), netPublicPrice = 12.5, netDiscount = 2.5
    and netDiscountPercent = 20. *)
Theorem worked_example_figures :
  forall (id name code supplier : jsstring)
         (tiers : option (list PriceBreakdown.t)) (average : option number),
    let product :=
      ProductItem.mk id name code supplier 3 10 tiers average (Some 15) (Some 20) in
    grossDiscount product = 5
    /\ grossDiscountPercent product = 33.333333333333329
    /\ (abs (grossDiscountPercent product - 33.33) <? 0.005) = true
    /\ netPublicPrice product = 12.5
    /\ netDiscount product = 2.5
    /\ netDiscountPercent product = 20.
Proof.
  intros. subst product. repeat split; vm_compute; reflexivity.
Qed.

(** C2, as the specification words it, fails on a zero-rated product: with
    [publicPrice = 15] and [vat = 0] both fields are present, the specified
    value is [15 / (1 + 0/100) = 15], and the code yields the sentinel 0. *)
Lemma netPublicPrice_zero_vat :
  publicPrice Samples.zeroRated = Some 15
  /\ vat Samples.zeroRated = Some 0
  /\ netPublicPrice Samples.zeroRated = 0
  /\ 15 / (1 + 0 / 100) = 15
  /\ (netPublicPrice Samples.zeroRated =? 15 / (1 + 0 / 100)) = false.
Proof. repeat split. Qed.

(** C2 (amended). [netPublicPrice] is [publicPrice / (1 + vat/100)] whenever
    both fields are present and truthy (neither zero nor NaN); it is the
    sentinel 0 whenever either field is absent, and also whenever either is
    present but zero or NaN. *)
Theorem netPublicPrice_cases :
  forall product : ProductItem.t,
    (forall pp v : number,
        publicPrice product = Some pp -> vat product = Some v ->
        truthy pp = true -> truthy v = true ->
        netPublicPrice product = pp / (1 + v / 100))
    /\ (publicPrice product = None \/ vat product = None ->
        netPublicPrice product = 0)
    /\ (forall x : number,
           publicPrice product = Some x \/ vat product = Some x ->
           (x =? 0) = true \/ is_nan x = true ->
           netPublicPrice product = 0).
Proof.
  intros product. unfold netPublicPrice. repeat split.
  - intros pp v -> -> Hpp Hv. simpl. now rewrite Hpp, Hv.
  - intros [-> | ->]; simpl; [reflexivity|].
    now rewrite andb_false_r.
  - intros x [-> | ->] Hx; apply truthy_false in Hx; simpl; rewrite Hx;
      [reflexivity | now rewrite andb_false_r].
Qed.

(** C4, as the specification words it, fails for a VAT of -100: the divisor
    [1 + vat/100] is 0, so [netPublicPrice] is [Infinity], which is truthy,
    [netDiscount] is [Infinity], and [netDiscountPercent] is
    [Infinity / Infinity * 100], which is NaN.  A guarded division can
    overflow too: with [publicPrice = 1e-310] and [unitPrice = 10],
    [grossDiscountPercent] is [-Infinity]. *)
Lemma netDiscountPercent_vat_minus_hundred :
  netPublicPrice Samples.minusHundred = infinity
  /\ netDiscount Samples.minusHundred = infinity
  /\ netDiscountPercent Samples.minusHundred = nan
  /\ isFinite (netPublicPrice Samples.minusHundred) = false
  /\ isNaN (netDiscountPercent Samples.minusHundred) = true
  /\ grossDiscountPercent Samples.tinyPublic = neg_infinity
  /\ isFinite (grossDiscountPercent Samples.tinyPublic) = false.
Proof. repeat split. Qed.

(** C4 (amended). [grossDiscountPercent] is 0 when [publicPrice] is absent or
    equal to 0, and [netDiscountPercent] is 0 when [netPublicPrice] is 0;
    when a percentage is computed, the division is by a [publicPrice]
    (a [netPublicPrice]) that is neither zero nor NaN.  For a finite
    [unitPrice], [grossDiscountPercent] is never NaN when [publicPrice] is
    absent or finite, and [netDiscountPercent] is never NaN when
    [netPublicPrice] is finite.  The results can be infinite, and the
    division by [1 + vat/100] inside [netPublicPrice] carries no guard. *)
Theorem discount_percent_guards :
  forall product : ProductItem.t,
    (publicPrice product = None -> grossDiscountPercent product = 0)
    /\ (forall x : number, publicPrice product = Some x -> (x =? 0) = true ->
        grossDiscountPercent product = 0)
    /\ ((netPublicPrice product =? 0) = true -> netDiscountPercent product = 0)
    /\ (forall pp : number,
           publicPrice product = Some pp -> truthy pp = true ->
           grossDiscountPercent product = ((pp - unitPrice product) / pp) * 100
           /\ (pp =? 0) = false /\ is_nan pp = false)
    /\ (truthy (netPublicPrice product) = true ->
        netDiscountPercent product =
          ((netPublicPrice product - unitPrice product) / netPublicPrice product) * 100
        /\ (netPublicPrice product =? 0) = false
        /\ is_nan (netPublicPrice product) = false)
    /\ (isFinite (unitPrice product) = true ->
        (forall pp : number, publicPrice product = Some pp -> isFinite pp = true) ->
        isNaN (grossDiscountPercent product) = false)
    /\ (isFinite (unitPrice product) = true ->
        isFinite (netPublicPrice product) = true ->
        isNaN (netDiscountPercent product) = false).
Proof.
  intros product.
  split; [|split; [|split; [|split; [|split; [|split]]]]].
  - intros Hnone. unfold grossDiscountPercent. now rewrite Hnone.
  - intros x Hsome Hx. unfold grossDiscountPercent. rewrite Hsome. simpl.
    now rewrite (truthy_zero _ Hx).
  - intros Hzero. unfold netDiscountPercent. now rewrite (truthy_zero _ Hzero).
  - intros pp Hsome Hpp. split; [|now apply truthy_true].
    unfold grossDiscountPercent, grossDiscount. rewrite Hsome. simpl.
    now rewrite Hpp.
  - intros Hnet. split; [|now apply truthy_true].
    unfold netDiscountPercent, netDiscount. now rewrite Hnet.
  - intros Hup Hpp. unfold isNaN, grossDiscountPercent, grossDiscount.
    destruct (publicPrice product) as [pp|]; simpl; [|reflexivity].
    destruct (truthy pp) eqn:Htruthy; [|reflexivity].
    apply percent_not_nan; auto.
  - intros Hup Hnet. unfold isNaN, netDiscountPercent, netDiscount.
    destruct (truthy (netPublicPrice product)) eqn:Htruthy; [|reflexivity].
    now apply percent_not_nan.
Qed.


End PriceMathFacts.

(** ** ProductAggregator *)

Section AggregatorFacts.
Import ProductItem PriceMath ProductAggregator.
Local Open Scope float_scope.

Lemma discount_fold_skips (products : list ProductItem.t) (sum : number) :
  Forall (fun p => truthy_opt (publicPrice p) = false) products ->
  fold_left discountStep products sum = sum.
Proof.
  intros H. revert sum.
  induction H as [|p l Hp _ IH]; intros sum; simpl; [reflexivity|].
  unfold discountStep at 2. rewrite Hp. apply IH.
Qed.

Lemma eligible_none (products : list ProductItem.t) :
  Forall (fun p => truthy_opt (publicPrice p) = false) products ->
  eligible products = [].
Proof.
  induction 1 as [|p l Hp _ IH]; simpl; [reflexivity|].
  unfold eligible in *. simpl. now rewrite Hp.
Qed.

Lemma average_discount_nan_without_eligible (products : list ProductItem.t) :
  Forall (fun p => truthy_opt (publicPrice p) = false) products ->
  averageDiscountPercent products = nan.
Proof.
  intros H. unfold averageDiscountPercent.
  rewrite (discount_fold_skips _ _ H), (eligible_none _ H). reflexivity.
Qed.

(** C1, as the specification words it, fails on every such list: for the
    one-line order [[{quantity: 3, unitPrice: 10}]], where no product has a
    [publicPrice], [averageDiscountPercent] is [0 / 0], that is NaN. *)
Lemma average_discount_is_nan_sample :
  Forall (fun p => publicPrice p = None) [Samples.plain]
  /\ averageDiscountPercent [Samples.plain] = nan
  /\ isNaN (averageDiscountPercent [Samples.plain]) = true.
Proof.
  split; [|split; reflexivity].
  constructor; [reflexivity | constructor].
Qed.

(** C1 (amended). For every product list in which no product has a
    [publicPrice], [averageDiscountPercent] is NaN: the computation does not
    detect the empty eligible set.  The NaN is filtered at display time only,
    where the guard [!isNaN(averageDiscountPercent) && averageDiscountPercent
    > 0] is false and hides the "Avg Discount" line. *)
Theorem average_discount_without_public_price :
  forall products : list ProductItem.t,
    Forall (fun p => publicPrice p = None) products ->
    averageDiscountPercent products = nan
    /\ isNaN (averageDiscountPercent products) = true
    /\ showAverageDiscount products = false.
Proof.
  intros products H.
  assert (Hnan : averageDiscountPercent products = nan).
  { apply average_discount_nan_without_eligible.
    revert H. apply List.Forall_impl. intros p Hp. now rewrite Hp. }
  unfold showAverageDiscount. rewrite Hnan. repeat split.
Qed.

Lemma average_discount_without_public_price_witness :
  Forall (fun p => publicPrice p = None) [Samples.plain; Samples.zeroAverage]
  /\ averageDiscountPercent [Samples.plain; Samples.zeroAverage] = nan
     /\ isNaN (averageDiscountPercent [Samples.plain; Samples.zeroAverage]) = true
     /\ showAverageDiscount [Samples.plain; Samples.zeroAverage] = false.
Proof.
  assert (H : Forall (fun p => publicPrice p = None)
                [Samples.plain; Samples.zeroAverage]).
  { repeat constructor. }
  split; [exact H|].
  exact (average_discount_without_public_price _ H).
Defined.

(** *** Savings against the average price *)

Lemma fold_add_map (f : ProductItem.t -> number) (products : list ProductItem.t)
    (sum : number) :
  fold_left (fun acc p => acc + f p) products sum
  = fold_left PrimFloat.add (List.map f products) sum.
Proof.
  revert sum. induction products as [|p l IH]; intros sum; simpl; [reflexivity|].
  apply IH.
Qed.

Lemma savings_fold_filtered (products : list ProductItem.t) (sum : number) :
  fold_left
    (fun acc p =>
       if truthy_opt (averagePrice p)
       then acc + ((ToNumber (averagePrice p) - unitPrice p) * quantity p)
       else acc)
    products sum
  = fold_left PrimFloat.add (Summation.savingsTerms products) sum.
Proof.
  unfold Summation.savingsTerms, Summation.withAverage.
  revert sum. induction products as [|p l IH]; intros sum; simpl; [reflexivity|].
  destruct (truthy_opt (averagePrice p)) eqn:Hp; simpl.
  - rewrite IH. f_equal. unfold savingsVsAverage. now rewrite Hp.
  - apply IH.
Qed.

Lemma savings_fold_all (products : list ProductItem.t) (sum : number) :
  Prim2SF sum <> S754_zero true ->
  fold_left
    (fun acc p =>
       if truthy_opt (averagePrice p)
       then acc + ((ToNumber (averagePrice p) - unitPrice p) * quantity p)
       else acc)
    products sum
  = fold_left PrimFloat.add (List.map savingsVsAverage products) sum.
Proof.
  revert sum.
  induction products as [|p l IH]; intros sum Hsum; simpl; [reflexivity|].
  unfold savingsVsAverage at 2.
  destruct (truthy_opt (averagePrice p)).
  - apply IH. now apply add_not_neg_zero.
  - rewrite (add_zero_r sum Hsum). now apply IH.
Qed.

(** C3, as the specification words it, fails when the average price is
    present and equal to 0: for [{quantity: 3, unitPrice: 10,
    averagePrice: 0}] the specified value is [(0 - 10) * 3 = -30] and the
    code yields 0. *)
Lemma savings_zero_average_price :
  averagePrice Samples.zeroAverage = Some 0
  /\ savingsVsAverage Samples.zeroAverage = 0
  /\ (0 - unitPrice Samples.zeroAverage) * quantity Samples.zeroAverage = -30
  /\ (savingsVsAverage Samples.zeroAverage
      =? (0 - unitPrice Samples.zeroAverage) * quantity Samples.zeroAverage) = false.
Proof. repeat split. Qed.

(** C3 (amended). [savingsVsAverage] is 0 when [averagePrice] is absent, and
    also when it is present but 0 or NaN; it is the signed value
    [(averagePrice - unitPrice) * quantity] when [averagePrice] is present
    and truthy.  For every product list, [totalSavingsVsAverage] is the
    left-to-right sum of [savingsVsAverage] over all products, which is also
    the sum over the products that have a truthy [averagePrice]. *)
Theorem savings_vs_average_cases :
  (forall product : ProductItem.t,
      (averagePrice product = None -> savingsVsAverage product = 0)
      /\ (forall ap : number,
             averagePrice product = Some ap -> truthy ap = true ->
             savingsVsAverage product = (ap - unitPrice product) * quantity product)
      /\ (forall ap : number,
             averagePrice product = Some ap ->
             (ap =? 0) = true \/ is_nan ap = true ->
             savingsVsAverage product = 0))
  /\ (forall products : list ProductItem.t,
        totalSavingsVsAverage products
        = Summation.sum_left (List.map savingsVsAverage products)
        /\ totalSavingsVsAverage products
           = Summation.sum_left (Summation.savingsTerms products)).
Proof.
  split.
  - intros product. unfold savingsVsAverage. repeat split.
    + now intros ->.
    + intros ap -> Hap. simpl. now rewrite Hap.
    + intros ap -> Hap. apply truthy_false in Hap. simpl. now rewrite Hap.
  - intros products. split.
    + apply savings_fold_all. discriminate.
    + apply savings_fold_filtered.
Qed.

(** The example of the specification: two lines with average prices 6 and 8
    bought at 5 and 8 save [(6-5)*2 + (8-8)*1 = 2]. *)
Example total_savings_example :
  totalSavingsVsAverage
    [Samples.line 2 5 (Some 6) None None; Samples.line 1 8 (Some 8) None None] = 2.
Proof. reflexivity. Qed.

(** *** Reordering the products *)

Lemma quantity_sum (products : list ProductItem.t) :
  totalQuantity products = Summation.sum_left (Summation.quantityTerms products).
Proof. apply fold_add_map. Qed.

Lemma discount_fold_terms (products : list ProductItem.t) (sum : number) :
  fold_left discountStep products sum
  = fold_left PrimFloat.add (Summation.discountTerms products) sum.
Proof.
  unfold Summation.discountTerms, eligible.
  revert sum. induction products as [|p l IH]; intros sum; simpl; [reflexivity|].
  rewrite IH. unfold discountStep.
  destruct (truthy_opt (publicPrice p)) eqn:Hp; simpl; [|reflexivity].
  f_equal. unfold grossDiscountPercent, grossDiscount. now rewrite Hp.
Qed.

Lemma average_discount_mean (products : list ProductItem.t) :
  averageDiscountPercent products
  = Summation.sum_left (Summation.discountTerms products)
    / of_length (length (Summation.discountTerms products)).
Proof.
  unfold averageDiscountPercent. rewrite discount_fold_terms.
  unfold Summation.discountTerms. now rewrite length_map.
Qed.

Lemma filter_permutation {A : Type} (f : A -> bool) (l l' : list A) :
  Permutation l l' -> Permutation (List.filter f l) (List.filter f l').
Proof.
  induction 1 as [|x l l' _ IH|x y l|l l' l'' _ IH1 _ IH2]; simpl.
  - constructor.
  - destruct (f x); [now constructor | exact IH].
  - destruct (f x), (f y); try reflexivity. apply perm_swap.
  - now transitivity (List.filter f l').
Qed.

(** C6, as the specification words it, fails in binary64 arithmetic, whose
    addition is not associative: the three lines of [Samples.order] give
    [totalSavingsVsAverage = 1.5] and [averageDiscountPercent =
    31.587118296125226], and the same lines in the opposite order give
    [1.4999999999999998] and [31.587118296125222].  The difference can be
    seen: the savings 0.10, -0.20 and 0.10 of [Samples.balanced] add up to
    [1.3877787807814457e-17], which shows the "Savings vs Avg" line, and in
    the order of [Samples.rebalanced] to 0, which hides it. *)
Lemma aggregates_depend_on_order :
  Permutation Samples.order Samples.reordered
  /\ totalSavingsVsAverage Samples.order = 1.5
  /\ totalSavingsVsAverage Samples.reordered = 1.4999999999999998
  /\ (totalSavingsVsAverage Samples.order
      =? totalSavingsVsAverage Samples.reordered) = false
  /\ averageDiscountPercent Samples.order = 31.587118296125226
  /\ averageDiscountPercent Samples.reordered = 31.587118296125222
  /\ (averageDiscountPercent Samples.order
      =? averageDiscountPercent Samples.reordered) = false
  /\ Permutation Samples.balanced Samples.rebalanced
  /\ totalSavingsVsAverage Samples.balanced = 1.3877787807814457e-17
  /\ totalSavingsVsAverage Samples.rebalanced = 0
  /\ showTotalSavings Samples.balanced = true
  /\ showTotalSavings Samples.rebalanced = false.
Proof.
  split; [|repeat split].
  - change Samples.reordered with (rev Samples.order). apply Permutation_rev.
  - apply perm_skip, perm_swap.
Qed.

(** With quantities that are non-negative integers, [totalQuantity] is their
    exact total as long as that total is below [2^53]. *)
Lemma total_quantity_exact (units : ProductItem.t -> Z)
    (products : list ProductItem.t) :
  (forall p : ProductItem.t, In p products ->
     (0 <= units p)%Z /\ quantity p = of_int (units p)) ->
  (Summation.integerTotal units products < 2 ^ 53)%Z ->
  totalQuantity products = of_int (Summation.integerTotal units products).
Proof.
  intros Hunits Htotal.
  rewrite quantity_sum.
  unfold Summation.sum_left, Summation.quantityTerms, Summation.integerTotal in *.
  rewrite (List.map_ext_in quantity (fun p => of_int (units p)))
    by (intros p Hp; apply Hunits, Hp).
  rewrite <- (List.map_map units of_int).
  change 0 with (of_int 0).
  rewrite fold_add_ints; [reflexivity | | reflexivity | exact Htotal].
  apply List.Forall_forall. intros n Hn.
  apply List.in_map_iff in Hn. destruct Hn as (p & <- & Hp).
  apply Hunits, Hp.
Qed.

(** C6 (amended). For every product list and every permutation of it, the
    counts are unchanged: [uniqueSuppliers], the number of products and the
    number of discount-eligible products.  [totalQuantity] is unchanged
    whenever the quantities are non-negative integers whose total is below
    [2^53].  In general [totalQuantity], [totalSavingsVsAverage] and
    [averageDiscountPercent] are left-to-right binary64 sums (the last one
    divided by the eligible count) whose lists of summands are permutations
    of each other; the rounded sums themselves need not agree. *)
Theorem aggregates_under_permutation :
  forall products products' : list ProductItem.t,
    Permutation products products' ->
    uniqueSuppliers products = uniqueSuppliers products'
    /\ length products = length products'
    /\ length (eligible products) = length (eligible products')
    /\ (totalQuantity products = Summation.sum_left (Summation.quantityTerms products)
        /\ totalQuantity products' = Summation.sum_left (Summation.quantityTerms products')
        /\ Permutation (Summation.quantityTerms products)
                       (Summation.quantityTerms products'))
    /\ (totalSavingsVsAverage products
          = Summation.sum_left (Summation.savingsTerms products)
        /\ totalSavingsVsAverage products'
          = Summation.sum_left (Summation.savingsTerms products')
        /\ Permutation (Summation.savingsTerms products)
                       (Summation.savingsTerms products'))
    /\ (averageDiscountPercent products
          = Summation.sum_left (Summation.discountTerms products)
            / of_length (length (eligible products))
        /\ averageDiscountPercent products'
          = Summation.sum_left (Summation.discountTerms products')
            / of_length (length (eligible products))
        /\ Permutation (Summation.discountTerms products)
                       (Summation.discountTerms products'))
    /\ (forall units : ProductItem.t -> Z,
          (forall p : ProductItem.t, In p products ->
             (0 <= units p)%Z /\ quantity p = of_int (units p)) ->
          (Summation.integerTotal units products < 2 ^ 53)%Z ->
          totalQuantity products = of_int (Summation.integerTotal units products)
          /\ totalQuantity products' = totalQuantity products).
Proof.
  intros products products' Hperm.
  assert (Hel : Permutation (eligible products) (eligible products'))
    by now apply filter_permutation.
  assert (Hlen : length (eligible products) = length (eligible products'))
    by now apply Permutation_length.
  split; [|split; [|split; [|split; [|split; [|split]]]]].
  - unfold uniqueSuppliers. f_equal.
    apply list_to_set_perm_L. now apply Permutation_map.
  - now apply Permutation_length.
  - exact Hlen.
  - split; [apply quantity_sum | split; [apply quantity_sum|]].
    now apply Permutation_map.
  - split; [apply savings_fold_filtered | split; [apply savings_fold_filtered|]].
    apply Permutation_map. now apply filter_permutation.
  - split; [|split].
    + rewrite average_discount_mean. unfold Summation.discountTerms.
      now rewrite length_map.
    + rewrite average_discount_mean. unfold Summation.discountTerms.
      now rewrite length_map, Hlen.
    + now apply Permutation_map.
  - intros units Hunits Htotal.
    assert (Hsame : Summation.integerTotal units products'
                    = Summation.integerTotal units products).
    { unfold Summation.integerTotal. symmetry.
      apply sum_permutation. now apply Permutation_map. }
    split; [now apply total_quantity_exact|].
    rewrite (total_quantity_exact units products Hunits Htotal).
    rewrite <- Hsame. apply total_quantity_exact.
    + intros p Hp. apply Hunits.
      apply (Permutation_in p (Permutation_sym Hperm) Hp).
    + now rewrite Hsame.
Qed.

Lemma aggregates_under_permutation_witness :
  Permutation Samples.order Samples.reordered
  /\ uniqueSuppliers Samples.order = uniqueSuppliers Samples.reordered
  /\ length (eligible Samples.order) = length (eligible Samples.reordered)
  /\ Permutation (Summation.savingsTerms Samples.order)
                 (Summation.savingsTerms Samples.reordered)
  /\ totalQuantity Samples.order = 6
  /\ totalQuantity Samples.reordered = totalQuantity Samples.order.
Proof.
  assert (H : Permutation Samples.order Samples.reordered).
  { change Samples.reordered with (rev Samples.order). apply Permutation_rev. }
  pose proof (aggregates_under_permutation _ _ H)
    as (Hsup & _ & Hel & _ & (_ & _ & Hsav) & _ & Hint).
  destruct (Hint Samples.units) as (Hsix & Hsame).
  { intros p [<- | [<- | [<- | []]]]; split; vm_compute; congruence. }
  { reflexivity. }
  split; [exact H|]. split; [exact Hsup|]. split; [exact Hel|].
  split; [exact Hsav|]. split; [exact Hsix | exact Hsame].
Defined.




End AggregatorFacts.

(** ** OrderExportAdapter *)

Section ExportFacts.
Import OrderExportAdapter.

Lemma exportProduct_lookup (products : list ProductItem.t) (i : nat) :
  List.map exportProduct products !! i = exportProduct <$> products !! i.
Proof.
  revert i. induction products as [|p l IH]; intros [|i]; simpl; try reflexivity.
  apply IH.
Qed.

(** C8, as the specification words it, fails for a name that is blank but
    not empty: after three spaces were typed, the name trims to the empty
    string and the submit button is disabled, and yet the export title is
    the three spaces, not ["Untitled Order"]. *)
Lemma export_title_of_blank_name :
  trim (str "   ") = []
  /\ OrderFormState.submitDisabled MoreSamples.blankName = Some true
  /\ handleExport MoreSamples.blankName [] (str "Buyer") csv
     = [exportOrderSummary (VStr (str "   ")) [] csv (str "Buyer")].
Proof.
  split; [reflexivity|].
  unfold handleExport, OrderFormState.submitDisabled, MoreSamples.blankName,
    OrderFormState.handleChange.
  rewrite !lookup_insert_eq. split; reflexivity.
Qed.

(** C8 (amended). [handleExport] makes one call of the export sink.  Its rows
    are as many as the products and the row at each index carries the [id],
    [name], [code], [quantity], [unitPrice] of the product at that index and
    its [averagePrice], [priceBreakdowns], [publicPrice] and [vat] as they
    are, absent when absent; the title is the entered order name whenever
    that name is not the empty string, also when it is blank (white space
    only), and ["Untitled Order"] only when the name is the empty string; an
    empty product list yields an empty row sequence. *)
Theorem export_rows_and_title :
  forall (orderData : OrderData) (products : list ProductItem.t)
         (userRole : jsstring) (format : Format),
  exists (title : value) (rows : list OrderExportProduct.t),
    handleExport orderData products userRole format
    = [exportOrderSummary title rows format userRole]
    /\ length rows = length products
    /\ (forall i : nat,
          match products !! i, rows !! i with
          | Some product, Some row =>
              OrderExportProduct.id row = ProductItem.id product
              /\ OrderExportProduct.name row = ProductItem.name product
              /\ OrderExportProduct.code row = ProductItem.code product
              /\ OrderExportProduct.quantity row = ProductItem.quantity product
              /\ OrderExportProduct.unitPrice row = ProductItem.unitPrice product
              /\ OrderExportProduct.averagePrice row = ProductItem.averagePrice product
              /\ OrderExportProduct.priceBreakdowns row
                 = ProductItem.priceBreakdowns product
              /\ OrderExportProduct.publicPrice row = ProductItem.publicPrice product
              /\ OrderExportProduct.vat row = ProductItem.vat product
          | None, None => True
          | _, _ => False
          end)
    /\ (forall orderName : jsstring,
          orderData !! "orderName" = Some (VStr orderName) ->
          title = VStr (match orderName with
                        | [] => str "Untitled Order"
                        | _ :: _ => orderName
                        end))
    /\ (forall orderName : jsstring,
          orderData !! "orderName" = Some (VStr orderName) ->
          orderName <> [] -> trim orderName = [] ->
          title = VStr orderName)
    /\ (products = [] -> rows = []).
Proof.
  intros orderData products userRole format.
  exists (or_else (orderData !! "orderName") (VStr (str "Untitled Order"))),
         (List.map exportProduct products).
  split; [reflexivity|]. split; [apply length_map|]. split; [|split; [|split]].
  - intros i. rewrite exportProduct_lookup.
    destruct (products !! i) as [product|]; simpl; [|exact I].
    repeat split.
  - intros orderName ->. now destruct orderName.
  - intros orderName -> Hne _. now destruct orderName.
  - now intros ->.
Qed.

(** The export row keeps a [publicPrice] of 0 as a present field. *)
Example export_keeps_zero_publicPrice :
  OrderExportProduct.publicPrice (exportProduct Samples.zeroPublic) = Some 0%float
  /\ OrderExportProduct.vat (exportProduct Samples.zeroPublic) = None.
Proof. split; reflexivity. Qed.

(** A name made of spaces is not empty: it is exported as it is. *)
Example export_title_of_spaces :
  forall (orderData : OrderData) (userRole : jsstring) (format : Format),
    handleExport (<["orderName" := VStr (str "   ")]> orderData) [] userRole format
    = [exportOrderSummary (VStr (str "   ")) [] format userRole].
Proof.
  intros. unfold handleExport. now rewrite lookup_insert_eq.
Qed.

End ExportFacts.

(** ** OrderFormState *)

Section FormFacts.
Import OrderFormState.

Lemma dispatch_insert (e : InputEvent) (prev : OrderData) :
  dispatch e prev = <[target e := written e]> prev.
Proof. now destruct e. Qed.

(** C9. Every input event writes exactly one property of [OrderData], the
    one it names (the radio group always names [priority]), with the value
    it carries, and the read of every other property is what it was; the
    transition is a total function of the event and the previous state. *)
Theorem input_event_updates_one_field :
  forall (e : InputEvent) (prev : OrderData),
    dispatch e prev !! target e = Some (written e)
    /\ (forall field : string, field <> target e ->
        dispatch e prev !! field = prev !! field)
    /\ dispatch e prev = <[target e := written e]> prev.
Proof.
  intros e prev. rewrite dispatch_insert.
  split; [apply lookup_insert_eq|]. split; [|reflexivity].
  intros field Hne. now apply lookup_insert_ne.
Qed.

(** The events of the rendered form keep [orderName] a string. *)
Lemma wired_keeps_orderName (e : InputEvent) (prev : OrderData) :
  wired e = true ->
  (exists s, prev !! "orderName" = Some (VStr s)) ->
  exists s, dispatch e prev !! "orderName" = Some (VStr s).
Proof.
  intros Hw [s Hs]. rewrite dispatch_insert.
  destruct (decide (target e = "orderName")) as [Heq|Hne].
  - rewrite Heq, lookup_insert_eq.
    destruct e as [name v|name b|name v|v]; simpl in *; eauto.
    subst name. vm_compute in Hw. discriminate Hw.
  - rewrite lookup_insert_ne by exact Hne. eauto.
Qed.

(** In every state the rendered form can reach, [orderName] is a string. *)
Lemma reachable_orderName (today : jsstring) (events : list InputEvent) :
  Forall (fun e => wired e = true) events ->
  exists s : jsstring,
    fold_left (fun orderData e => dispatch e orderData) events
      (initialOrderData today) !! "orderName" = Some (VStr s).
Proof.
  intros Hwired.
  assert (Hinit : exists s : jsstring,
             initialOrderData today !! "orderName" = Some (VStr s)).
  { exists []. apply lookup_insert_eq. }
  revert Hinit. generalize (initialOrderData today).
  induction Hwired as [|e events He _ IH]; intros orderData Hname; simpl.
  - exact Hname.
  - apply IH. now apply wired_keeps_orderName.
Qed.

(** *** [trim] *)

Lemma trimStart_all_white (s : jsstring) :
  Forall (fun c => isWhiteSpace c = true) (trimStart s)
  <-> Forall (fun c => isWhiteSpace c = true) s.
Proof.
  induction s as [|c s IH]; simpl; [reflexivity|].
  destruct (isWhiteSpace c) eqn:Hc; [|reflexivity].
  rewrite IH. split.
  - intros H. now constructor.
  - intros H. now inversion H.
Qed.

Lemma trimStart_nil (s : jsstring) :
  trimStart s = [] <-> Forall (fun c => isWhiteSpace c = true) s.
Proof.
  induction s as [|c s IH]; simpl.
  - split; [constructor | reflexivity].
  - destruct (isWhiteSpace c) eqn:Hc.
    + rewrite IH. split.
      * intros H. now constructor.
      * intros H. now inversion H.
    + split; [discriminate|].
      intros H. inversion H; congruence.
Qed.

Lemma trim_nil (s : jsstring) :
  trim s = [] <-> Forall (fun c => isWhiteSpace c = true) s.
Proof.
  unfold trim, trimEnd.
  rewrite <- trimStart_all_white.
  set (t := trimStart s).
  split.
  - intros H. apply (f_equal (@rev N)) in H. rewrite rev_involutive in H.
    simpl in H. apply trimStart_nil in H.
    rewrite <- (rev_involutive t). now apply Forall_rev.
  - intros H. apply Forall_rev in H. apply trimStart_nil in H. now rewrite H.
Qed.

Lemma trim_not_nil (s : jsstring) :
  trim s <> [] <-> exists c : N, In c s /\ isWhiteSpace c = false.
Proof.
  rewrite trim_nil. split.
  - intros H. induction s as [|c s IH].
    + destruct H. constructor.
    + destruct (isWhiteSpace c) eqn:Hc.
      * destruct IH as (c' & Hin & Hc').
        { intros Hs. apply H. now constructor. }
        exists c'. split; [now right | exact Hc'].
      * exists c. split; [now left | exact Hc].
  - intros (c & Hin & Hc) H.
    rewrite List.Forall_forall in H. specialize (H c Hin). congruence.
Qed.

(** C7. In a state whose [orderName] is the string [orderName], the submit
    button is enabled exactly when [orderName.trim()] is not empty, that is
    when the name has a code unit that is not white space; a click on the
    enabled button calls [onSubmitOrder] with the whole [orderData] and then
    [onClose], and a click on the disabled one calls nothing; the draft button
    is never disabled, and a click on it calls [onSaveAsDraft] and then
    [onClose]. *)
Theorem submit_enabled_iff_name_not_blank :
  forall (orderData : OrderData) (orderName : jsstring),
    orderData !! "orderName" = Some (VStr orderName) ->
    (submitDisabled orderData = Some false <-> trim orderName <> [])
    /\ (submitDisabled orderData = Some true <-> trim orderName = [])
    /\ (trim orderName <> []
        <-> exists c : N, In c orderName /\ isWhiteSpace c = false)
    /\ (trim orderName <> [] ->
        clickSubmit orderData = [onSubmitOrder orderData; onClose])
    /\ (trim orderName = [] -> clickSubmit orderData = [])
    /\ saveDraftDisabled orderData = false
    /\ clickSaveDraft orderData = [onSaveAsDraft; onClose].
Proof.
  intros orderData orderName Hname.
  assert (Hdis : submitDisabled orderData
                 = Some (negb (str_truthy (trim orderName)))).
  { unfold submitDisabled. now rewrite Hname. }
  pose proof (trim_not_nil orderName) as Hchar.
  unfold clickSubmit. rewrite Hdis.
  destruct (trim orderName) as [|c t]; simpl;
    (split; [|split; [|split; [exact Hchar|]]]);
    repeat split; congruence.
Qed.

Lemma submit_enabled_iff_name_not_blank_witness :
  let named := handleChange "orderName" (str "PO-42")
                 (initialOrderData (str "2026-01-15")) in
  let spaces := handleChange "orderName" (str "   ")
                  (initialOrderData (str "2026-01-15")) in
  submitDisabled named = Some false
  /\ clickSubmit named = [onSubmitOrder named; onClose]
  /\ submitDisabled spaces = Some true
  /\ clickSubmit spaces = []
  /\ clickSaveDraft spaces = [onSaveAsDraft; onClose].
Proof.
  intros named spaces.
  assert (Hn : named !! "orderName" = Some (VStr (str "PO-42")))
    by apply lookup_insert_eq.
  assert (Hs : spaces !! "orderName" = Some (VStr (str "   ")))
    by apply lookup_insert_eq.
  destruct (submit_enabled_iff_name_not_blank named _ Hn)
    as (Hen & _ & _ & Hclick & _).
  destruct (submit_enabled_iff_name_not_blank spaces _ Hs)
    as (_ & Hdis & _ & _ & Hnone & _ & Hdraft).
  assert (Htrim : trim (str "PO-42") <> []) by (vm_compute; discriminate).
  split; [|split; [|split; [|split]]].
  - now apply Hen.
  - now apply Hclick.
  - now apply Hdis.
  - now apply Hnone.
  - exact Hdraft.
Defined.

End FormFacts.

(** ** ProductRow: the conditions of the display *)

Section ProductRowFacts.
Import ProductItem PriceMath ProductRow.
Local Open Scope float_scope.

(** When two numbers are equal, their difference times anything is not
    positive: it is a zero, or NaN. *)
Lemma equal_prices_no_positive_savings (a u q : number) :
  (a =? u) = true -> (0 <? (a - u) * q) = false.
Proof.
  intros Heq.
  rewrite FloatAxioms.eqb_spec in Heq.
  rewrite FloatAxioms.ltb_spec, FloatAxioms.mul_spec, FloatAxioms.sub_spec.
  change (Prim2SF 0) with (S754_zero false).
  unfold SFeqb in Heq. unfold SFltb, SF64mul, SF64sub.
  destruct (Prim2SF a) as [sa|sa| |sa ma ea], (Prim2SF u) as [su|su| |su mu eu];
    simpl in Heq; try discriminate;
    try (destruct sa; discriminate); try (destruct su; discriminate).
  - assert (Hz : exists s, SFsub prec emax (S754_zero sa) (S754_zero su) = S754_zero s)
      by (destruct sa, su; simpl; eauto).
    destruct Hz as [s ->].
    destruct (Prim2SF q) as [sq|sq| |sq mq eq]; reflexivity.
  - assert (Hn : SFsub prec emax (S754_infinity sa) (S754_infinity su) = S754_nan)
      by (destruct sa, su; simpl; (reflexivity || discriminate)).
    rewrite Hn. reflexivity.
  - assert (Hsame : sa = su /\ ea = eu /\ ma = mu).
    { destruct sa, su; try discriminate;
        destruct (ea ?= eu)%Z eqn:He; try discriminate;
        apply Z.compare_eq in He;
        (destruct (Pos.compare_cont Eq ma mu) eqn:Hm; try discriminate);
        apply Pcompare_Eq_eq in Hm; auto. }
    destruct Hsame as (-> & -> & ->).
    assert (Hz : SFsub prec emax (S754_finite su mu eu) (S754_finite su mu eu)
                 = S754_zero false).
    { simpl. now rewrite Z.sub_diag. }
    rewrite Hz.
    destruct (Prim2SF q) as [sq|sq| |sq mq eq]; reflexivity.
Qed.

Lemma save_caption_needs_average (product : ProductItem.t) :
  (0 <? savingsVsAverage product) = true ->
  exists ap : number,
    averagePrice product = Some ap /\ truthy ap = true
    /\ (ap =? unitPrice product) = false.
Proof.
  unfold savingsVsAverage. intros Hpos.
  destruct (averagePrice product) as [ap|]; simpl in Hpos; [|discriminate].
  destruct (truthy ap) eqn:Hap; [|discriminate].
  exists ap. split; [reflexivity|]. split; [exact Hap|].
  destruct (ap =? unitPrice product) eqn:Heq; [|reflexivity].
  now rewrite (equal_prices_no_positive_savings _ _ _ Heq) in Hpos.
Qed.

(** X1. Whenever the "Save:" caption is shown under the line total, the
    product has an average price that differs from its unit price, so the
    "Avg:" caption is shown under the unit price, and the savings cell of the
    details is shown in the success colour. *)
Theorem save_caption_comes_with_average_caption :
  forall (product : ProductItem.t) (saving : number),
    saveCaption product = Content saving ->
    saving = savingsVsAverage product
    /\ exists ap : number,
         averagePrice product = Some ap
         /\ averageCaption product = Content ap
         /\ savingsCell product = Content (saving, successMain)
         /\ averageFooter product = Content ap.
Proof.
  intros product saving. unfold saveCaption, whenTrue.
  destruct (0 <? savingsVsAverage product) eqn:Hpos; [|discriminate].
  intros [= <-]. split; [reflexivity|].
  destruct (save_caption_needs_average product Hpos) as (ap & Hsome & Hap & Hne).
  exists ap. split; [exact Hsome|].
  unfold averageCaption, savingsCell, averageFooter, whenNumber, whenTrue,
    strictNotEqual.
  rewrite Hsome, Hap, Hne, Hpos. repeat split.
Qed.

Lemma save_caption_comes_with_average_caption_witness :
  saveCaption Samples.lineB = Content 1
  /\ averageCaption Samples.lineB = Content 10.49.
Proof.
  destruct (save_caption_comes_with_average_caption Samples.lineB 1 eq_refl) as (_ & ap & Hsome & Hcaption & _).
  injection Hsome as <-. split; [reflexivity | exact Hcaption].
Defined.

(** X2. Whenever the gross discount cell of the details is shown, the product
    has a truthy public price, so the public price cell and the discount chip
    are shown; whenever the net discount cell is shown as well, the VAT is
    truthy too, so the VAT-excluded price cell and the VAT chip are shown. *)
Theorem discount_cells_come_with_price_cells :
  forall (product : ProductItem.t) (gross : number * number)
         (inner : Slot (number * number)),
    discountCells product = Content (gross, inner) ->
    (exists pp : number,
        publicPrice product = Some pp
        /\ gross = (pp - unitPrice product, grossDiscountPercent product)
        /\ (exists vatCell, publicPriceCells product = Content (pp, vatCell))
        /\ (exists vatChip,
               previewChips product = Content (grossDiscountPercent product, vatChip)))
    /\ (forall net : number * number,
           inner = Content net ->
           exists pp v : number,
             publicPrice product = Some pp /\ vat product = Some v
             /\ publicPriceCells product
                = Content (pp, Content (netPublicPrice product))
             /\ previewChips product
                = Content (grossDiscountPercent product, Content v)).
Proof.
  intros product gross inner. unfold discountCells, whenTrue.
  destruct (0 <? grossDiscount product) eqn:Hgross; [|discriminate].
  intros [= <- <-].
  assert (Hpp : exists pp, publicPrice product = Some pp /\ truthy pp = true).
  { unfold grossDiscount in Hgross.
    destruct (publicPrice product) as [pp|]; simpl in Hgross; [|discriminate].
    destruct (truthy pp) eqn:Hpp; [eauto | discriminate]. }
  destruct Hpp as (pp & Hsome & Hpp).
  split.
  - exists pp. split; [exact Hsome|].
    unfold publicPriceCells, previewChips, whenNumber, grossDiscount.
    rewrite Hsome. simpl. rewrite Hpp. eauto.
  - destruct (0 <? netDiscount product) eqn:Hnet; [|discriminate].
    intros net _.
    assert (Hv : exists v, vat product = Some v /\ truthy v = true).
    { unfold netDiscount, netPublicPrice in Hnet. rewrite Hsome in Hnet.
      simpl in Hnet. rewrite Hpp in Hnet.
      destruct (vat product) as [v|]; simpl in Hnet; [|discriminate].
      destruct (truthy v) eqn:Hv; [eauto | discriminate]. }
    destruct Hv as (v & Hvat & Hv).
    exists pp, v. split; [exact Hsome|]. split; [exact Hvat|].
    unfold publicPriceCells, previewChips, whenNumber.
    rewrite Hsome, Hvat. simpl. now rewrite Hpp, Hv.
Qed.

Lemma discount_cells_come_with_price_cells_witness :
  discountCells Samples.listed = Content ((5, 33.333333333333329), Content (2.5, 20))
  /\ publicPriceCells Samples.listed = Content (15, Content 12.5).
Proof.
  destruct (discount_cells_come_with_price_cells Samples.listed
              (5, 33.333333333333329) (Content (2.5, 20)) eq_refl)
    as (_ & Hnet).
  destruct (Hnet (2.5, 20) eq_refl) as (pp & v & Hpp & _ & Hcells & _).
  injection Hpp as <-. split; [reflexivity | exact Hcells].
Defined.






End ProductRowFacts.

(** ** ProductRow: the expanded state and the tier table *)

Section RowStateFacts.
Import ProductItem ProductRow.

Lemma run_snoc (events : list RowEvent) (e : RowEvent) (expanded : bool) :
  run (events ++ [e]) expanded = step e (run events expanded).
Proof. unfold run. now rewrite fold_left_app. Qed.

Lemma run_toggles (n : nat) (expanded : bool) :
  run (repeat ToggleClick n) expanded
  = if Nat.even n then expanded else negb expanded.
Proof.
  revert expanded. induction n as [|n IH]; intros expanded; [reflexivity|].
  change (run (repeat ToggleClick (S n)) expanded)
    with (run (repeat ToggleClick n) (negb expanded)).
  rewrite IH, Nat.even_succ, <- Nat.negb_even.
  destruct (Nat.even n); simpl; [reflexivity | apply negb_involutive].
Qed.

Lemma modal_run_snoc (events : list ModalSession.UIEvent)
    (u : ModalSession.UIEvent) (s : ModalSession.State) :
  ModalSession.run (events ++ [u]) s
  = ModalSession.step u (ModalSession.run events s).
Proof. unfold ModalSession.run. now rewrite fold_left_app. Qed.

Lemma modal_run_line_events (events : list RowEvent) (s : ModalSession.State) :
  ModalSession.run (List.map ModalSession.LineEvent events) s
  = (fst s, run events (snd s)).
Proof.
  revert s. induction events as [|e events IH]; intros [orderData expanded];
    [reflexivity|].
  simpl. now rewrite IH.
Qed.

(** X4. After any sequence of events of a line, a click on the summary row
    leaves the line expanded (it never collapses it), a click on "Close" and
    a render of the modal leave it collapsed, and [n] clicks on the arrow
    leave it as it was when [n] is even and flipped when [n] is odd.  The
    events of a line never change [orderData]; every input event of the form
    renders the modal, so after an input event and then [n] clicks on the
    arrow the form holds what the event wrote and the line is expanded
    exactly when [n] is odd, whatever was open before. *)
Theorem expanded_after_clicks :
  forall (events : list RowEvent) (expanded : bool),
    run (events ++ [RowClick]) expanded = true
    /\ run (events ++ [CloseClick]) expanded = false
    /\ run (events ++ [ModalRender]) expanded = false
    /\ (forall n : nat,
           run (events ++ repeat ToggleClick n) expanded
           = if Nat.even n then run events expanded
             else negb (run events expanded))
    /\ (forall orderData : OrderData,
           ModalSession.run (List.map ModalSession.LineEvent events)
             (orderData, expanded)
           = (orderData, run events expanded))
    /\ (forall (session : list ModalSession.UIEvent)
               (e : OrderFormState.InputEvent) (s : ModalSession.State) (n : nat),
           ModalSession.run
             (session ++ ModalSession.FormInput e
                :: List.map ModalSession.LineEvent (repeat ToggleClick n)) s
           = (OrderFormState.dispatch e (fst (ModalSession.run session s)),
              Nat.odd n)).
Proof.
  intros events expanded. split; [|split; [|split; [|split; [|split]]]].
  - rewrite run_snoc. simpl. now destruct (run events expanded).
  - now rewrite run_snoc.
  - now rewrite run_snoc.
  - intros n. unfold run at 1. rewrite fold_left_app. apply run_toggles.
  - intros orderData. apply modal_run_line_events.
  - intros session e s n.
    change (session ++ ModalSession.FormInput e
              :: List.map ModalSession.LineEvent (repeat ToggleClick n))
      with (session ++ [ModalSession.FormInput e]
              ++ List.map ModalSession.LineEvent (repeat ToggleClick n)).
    rewrite app_assoc. unfold ModalSession.run at 1. rewrite fold_left_app.
    fold (ModalSession.run (session ++ [ModalSession.FormInput e]) s).
    rewrite modal_run_snoc.
    fold (ModalSession.run
            (List.map ModalSession.LineEvent (repeat ToggleClick n))
            (ModalSession.step (ModalSession.FormInput e)
               (ModalSession.run session s))).
    rewrite modal_run_line_events. simpl. rewrite run_toggles.
    rewrite <- Nat.negb_even. now destruct (Nat.even n).
Qed.

Lemma imap_related {A B : Type} (R : A -> A -> Prop) (f g : nat -> A -> B)
    (l l' : list A) :
  Forall2 R l l' ->
  (forall (i : nat) (x y : A), R x y -> f i x = g i y) ->
  imap f l = imap g l'.
Proof.
  intros Hrel. revert f g.
  induction Hrel as [|x y l l' Hxy _ IH]; intros f g Hfg; simpl; [reflexivity|].
  f_equal; [now apply Hfg|].
  apply IH. intros i a b Hab. now apply Hfg.
Qed.

Lemma isAdmin_exact (userRole : jsstring) :
  isAdmin userRole = true <-> userRole = str "Admin".
Proof. unfold isAdmin. apply bool_decide_eq_true. Qed.

(** X5. The supplier of a tier reaches the screen for the role ["Admin"]
    only, compared exactly: for any other role, also for the default
    ["Buyer"] of a missing prop and for ["admin"], the rendered tier rows of
    two products are the same whenever their tiers agree on quantity, unit
    price and stock, whatever the suppliers are. *)
Theorem tier_rows_hide_suppliers :
  forall (role : option jsstring) (product product' : ProductItem.t)
         (tiers tiers' : list PriceBreakdown.t),
    effectiveRole role <> str "Admin" ->
    priceBreakdowns product = Some tiers ->
    priceBreakdowns product' = Some tiers' ->
    Forall2
      (fun b b' =>
         PriceBreakdown.quantity b = PriceBreakdown.quantity b'
         /\ PriceBreakdown.unitPrice b = PriceBreakdown.unitPrice b'
         /\ PriceBreakdown.stock b = PriceBreakdown.stock b')
      tiers tiers' ->
    isAdmin (effectiveRole role) = false
    /\ tierRows (isAdmin (effectiveRole role)) product
       = tierRows (isAdmin (effectiveRole role)) product'.
Proof.
  intros role product product' tiers tiers' Hrole Htiers Htiers' Hagree.
  assert (Hadmin : isAdmin (effectiveRole role) = false).
  { apply not_true_iff_false. now rewrite isAdmin_exact. }
  split; [exact Hadmin|].
  unfold tierRows. rewrite Htiers, Htiers', Hadmin.
  apply (imap_related _ _ _ _ _ Hagree).
  intros i b b' (Hq & Hp & Hs). unfold tierRow. now rewrite Hq, Hp, Hs.
Qed.

Lemma tier_rows_hide_suppliers_witness :
  isAdmin (effectiveRole (Some (str "admin"))) = false
  /\ tierRows (isAdmin (effectiveRole (Some (str "admin")))) MoreSamples.tiered
     = tierRows (isAdmin (effectiveRole (Some (str "admin")))) MoreSamples.blanked.
Proof.
  apply (tier_rows_hide_suppliers (Some (str "admin"))
           MoreSamples.tiered MoreSamples.blanked
           MoreSamples.tiers MoreSamples.blankedTiers).
  - discriminate.
  - reflexivity.
  - reflexivity.
  - repeat constructor.
Defined.

(** X6. The tier table is well formed for every role: it has one row per
    tier, in order (none when [priceBreakdowns] is absent), every row has as
    many cells as the header (four for an admin, three otherwise), the rows
    at odd indices are striped, only the price of the first tier is
    highlighted, and for an admin the fourth cell is the supplier of the
    tier. *)
Theorem tier_table_shape :
  forall (admin : bool) (product : ProductItem.t),
    let tiers := match priceBreakdowns product with
                 | Some l => l
                 | None => []
                 end in
    length (tierRows admin product) = length tiers
    /\ length (tierHeader admin) = (if admin then 4 else 3)
    /\ (forall (i : nat) (row : TierRow),
           tierRows admin product !! i = Some row ->
           exists b : PriceBreakdown.t,
             tiers !! i = Some b
             /\ length (cells row) = length (tierHeader admin)
             /\ striped row = Nat.odd i
             /\ cells row !! 0 = Some (CNumber (PriceBreakdown.quantity b))
             /\ cells row !! 1
                = Some (CPrice (PriceBreakdown.unitPrice b) (Nat.eqb i 0))
             /\ cells row !! 2 = Some (CNumber (PriceBreakdown.stock b))
             /\ cells row !! 3
                = (if admin then Some (CText (PriceBreakdown.supplier b))
                   else None)).
Proof.
  intros admin product tiers.
  assert (Hrows : tierRows admin product = imap (tierRow admin) tiers).
  { unfold tierRows, tiers. now destruct (priceBreakdowns product). }
  rewrite Hrows. split; [apply length_imap|]. split; [now destruct admin|].
  intros i row. rewrite list_lookup_imap.
  destruct (tiers !! i) as [b|]; simpl; [|discriminate].
  intros [= <-]. exists b. split; [reflexivity|].
  destruct admin; repeat split.
Qed.

End RowStateFacts.

(** ** The session of the form *)

Section SessionFacts.
Import OrderFormState OrderFormSession.

Lemma session_snoc (events : list InputEvent) (e : InputEvent) (s : OrderData) :
  run (events ++ [e]) s = dispatch e (run events s).
Proof. unfold run. now rewrite fold_left_app. Qed.

Lemma lastWritten_snoc (field : string) (events : list InputEvent)
    (e : InputEvent) :
  lastWritten field (events ++ [e])
  = if decide (target e = field) then Some (written e)
    else lastWritten field events.
Proof. unfold lastWritten. now rewrite fold_left_app. Qed.

Lemma run_lookup (events : list InputEvent) (s : OrderData) (field : string) :
  run events s !! field
  = match lastWritten field events with
    | Some v => Some v
    | None => s !! field
    end.
Proof.
  induction events as [|e events IH] using rev_ind; [reflexivity|].
  rewrite session_snoc, lastWritten_snoc, dispatch_insert.
  destruct (decide (target e = field)) as [<-|Hne].
  - apply lookup_insert_eq.
  - rewrite lookup_insert_ne by exact Hne. exact IH.
Qed.

(** X7. Two input events that write different properties can be handled in
    either order with the same result, and of two events that write the same
    property the later one alone decides the result. *)
Theorem events_commute_or_override :
  forall (e1 e2 : InputEvent) (s : OrderData),
    (target e1 <> target e2 ->
     dispatch e2 (dispatch e1 s) = dispatch e1 (dispatch e2 s))
    /\ (target e1 = target e2 ->
        dispatch e2 (dispatch e1 s) = dispatch e2 s).
Proof.
  intros e1 e2 s. rewrite !dispatch_insert. split.
  - intros Hne. now apply insert_insert_ne.
  - intros ->. apply insert_insert_eq.
Qed.

(** X8. After any sequence of input events, every property of the state
    holds the value of the last event that wrote it, and the value it had
    before the sequence when no event wrote it. *)
Theorem state_is_last_write :
  forall (events : list InputEvent) (s : OrderData) (field : string),
    run events s !! field
    = match lastWritten field events with
      | Some v => Some v
      | None => s !! field
      end.
Proof. exact run_lookup. Qed.

Lemma wellFormed_initial (today : jsstring) :
  wellFormed (initialOrderData today).
Proof.
  unfold wellFormed, initialOrderData. split.
  - rewrite !dom_insert_L, dom_empty_L. set_solver.
  - repeat split; eexists; try split;
      try (simplify_map_eq; reflexivity); simpl; auto.
Qed.

Lemma wellFormed_dispatch (e : InputEvent) (s : OrderData) :
  wellFormed s -> rendered e -> wellFormed (dispatch e s).
Proof.
  intros (Hdom & Hname & Hdate & Hnotes & Hprio & Hpay & Htpl & Hnotify) He.
  assert (Hin : target e ∈ dom s).
  { apply elem_of_dom.
    destruct Hname as [x1 H1], Hdate as [x2 H2], Hnotes as [x3 H3],
      Hprio as (x4 & H4 & _), Hpay as (x5 & H5 & _), Htpl as [x6 H6],
      Hnotify as [x7 H7].
    destruct e as [name v|name b|name v|v]; simpl in *;
      [destruct He as [->|[->| ->]] | destruct He as [->| ->]
       | destruct He as [-> _] | ]; eauto. }
  rewrite dispatch_insert. unfold wellFormed. split.
  - rewrite dom_insert_L, <- Hdom. apply subseteq_union_1_L.
    now apply singleton_subseteq_l.
  - destruct Hname as [x1 H1], Hdate as [x2 H2], Hnotes as [x3 H3],
      Hprio as (x4 & H4 & Hp), Hpay as (x5 & H5 & Hm), Htpl as [x6 H6],
      Hnotify as [x7 H7].
    destruct e as [name v|name b|name v|v]; simpl in *;
      [destruct He as [->|[->| ->]] | destruct He as [->| ->]
       | destruct He as [-> Hv] | ];
      repeat split; simplify_map_eq; eauto.
Qed.

(** X9. Every state the rendered form can reach has the shape the
    [OrderData] interface declares: exactly the seven declared properties,
    the three text fields strings, the two flags booleans, [priority] one of
    the three radio values and [paymentMethod] one of the four menu items. *)
Theorem reachable_states_are_well_formed :
  forall (today : jsstring) (events : list InputEvent),
    Forall rendered events ->
    wellFormed (run events (initialOrderData today)).
Proof.
  intros today events.
  induction events as [|e events IH] using rev_ind; intros Hevents.
  - apply wellFormed_initial.
  - apply Forall_app in Hevents as [Hevents He].
    rewrite session_snoc. apply wellFormed_dispatch; [now apply IH|].
    now inversion He.
Qed.

Lemma reachable_states_are_well_formed_witness :
  wellFormed (run MoreSamples.typing (initialOrderData (str "2026-01-15"))).
Proof.
  apply reachable_states_are_well_formed.
  repeat (apply List.Forall_cons; [cbn; auto 10|]); constructor.
Defined.

Lemma lastWritten_orderName (events : list InputEvent) :
  Forall rendered events ->
  lastWritten "orderName" events = None
  \/ exists s : jsstring, lastWritten "orderName" events = Some (VStr s).
Proof.
  induction events as [|e events IH] using rev_ind; intros Hevents.
  - now left.
  - apply Forall_app in Hevents as [Hevents He]. inversion_clear He as [|? ? He' _].
    rewrite lastWritten_snoc.
    destruct (decide (target e = "orderName")) as [Heq|Hne]; [|now apply IH].
    right.
    destruct e as [name v|name b|name v|v]; simpl in *; eauto.
    destruct He' as [->| ->]; discriminate.
Qed.

Lemma typed_name_lookup (today : jsstring) (events : list InputEvent) :
  Forall rendered events ->
  run events (initialOrderData today) !! "orderName"
  = Some (VStr (typedName events)).
Proof.
  intros Hevents. rewrite run_lookup. unfold typedName.
  destruct (lastWritten_orderName events Hevents) as [-> | [s ->]];
    reflexivity.
Qed.

(** X10. In a session of the rendered form, the submit button is enabled
    exactly when the name typed last into the "Order Name" field has a
    character that is not white space; it is disabled as long as nothing was
    typed there, whatever happened to the other fields; and a click on it,
    when enabled, hands over the state all the events built. *)
Theorem submit_follows_typed_name :
  forall (today : jsstring) (events : list InputEvent),
    Forall rendered events ->
    let state := run events (initialOrderData today) in
    submitDisabled state = Some (negb (str_truthy (trim (typedName events))))
    /\ (lastWritten "orderName" events = None -> clickSubmit state = [])
    /\ ((exists c : N, In c (typedName events) /\ isWhiteSpace c = false) ->
        clickSubmit state = [onSubmitOrder state; onClose]).
Proof.
  intros today events Hevents state.
  pose proof (typed_name_lookup today events Hevents) as Hname.
  fold state in Hname.
  assert (Hdis : submitDisabled state
                 = Some (negb (str_truthy (trim (typedName events))))).
  { unfold submitDisabled. now rewrite Hname. }
  split; [exact Hdis|]. split.
  - intros Hnone. unfold clickSubmit. rewrite Hdis.
    unfold typedName. now rewrite Hnone.
  - intros Hchar. apply trim_not_nil in Hchar.
    unfold clickSubmit. rewrite Hdis.
    destruct (trim (typedName events)); [congruence | reflexivity].
Qed.

Lemma submit_follows_typed_name_witness :
  let today := str "2026-01-15" in
  let named := run MoreSamples.typing (initialOrderData today) in
  let unnamed := run MoreSamples.unnamed (initialOrderData today) in
  (submitDisabled named = Some false
   /\ clickSubmit named = [onSubmitOrder named; onClose])
  /\ (submitDisabled unnamed = Some true /\ clickSubmit unnamed = []).
Proof.
  intros today named unnamed.
  assert (Htyping : Forall rendered MoreSamples.typing)
    by (repeat (apply List.Forall_cons; [cbn; auto 10|]); constructor).
  assert (Hunnamed : Forall rendered MoreSamples.unnamed)
    by (repeat (apply List.Forall_cons; [cbn; auto 10|]); constructor).
  destruct (submit_follows_typed_name today MoreSamples.typing Htyping)
    as (Hdis & _ & Hclick).
  destruct (submit_follows_typed_name today MoreSamples.unnamed Hunnamed)
    as (Hdis' & Hnone & _).
  split; split.
  - exact Hdis.
  - apply Hclick. exists 80%N. split; [now left | reflexivity].
  - exact Hdis'.
  - now apply Hnone.
Defined.

(** X11. In a session of the rendered form, an export at any moment is one
    call of the export sink whose title is the name typed last into the
    "Order Name" field, or ["Untitled Order"] when that name is empty or
    nothing was typed; the rows and the role do not depend on the form. *)
Theorem export_follows_typed_name :
  forall (today : jsstring) (events : list InputEvent)
         (products : list ProductItem.t) (userRole : jsstring) (format : Format),
    Forall rendered events ->
    OrderExportAdapter.handleExport (run events (initialOrderData today))
      products userRole format
    = [exportOrderSummary
         (VStr (match typedName events with
                | [] => str "Untitled Order"
                | _ :: _ => typedName events
                end))
         (List.map OrderExportAdapter.exportProduct products) format userRole].
Proof.
  intros today events products userRole format Hevents.
  unfold OrderExportAdapter.handleExport.
  rewrite (typed_name_lookup today events Hevents).
  now destruct (typedName events).
Qed.

Lemma export_follows_typed_name_witness :
  let today := str "2026-01-15" in
  OrderExportAdapter.handleExport
    (run MoreSamples.typing (initialOrderData today))
    Samples.order (str "Buyer") csv
  = [exportOrderSummary (VStr (str "PO-42"))
       (List.map OrderExportAdapter.exportProduct Samples.order) csv (str "Buyer")]
  /\ OrderExportAdapter.handleExport
       (run MoreSamples.unnamed (initialOrderData today))
       Samples.order (str "Admin") xlsx
     = [exportOrderSummary (VStr (str "Untitled Order"))
          (List.map OrderExportAdapter.exportProduct Samples.order) xlsx
          (str "Admin")].
Proof.
  intros today. split.
  - apply (export_follows_typed_name today MoreSamples.typing).
    repeat (apply List.Forall_cons; [cbn; auto 10|]); constructor.
  - apply (export_follows_typed_name today MoreSamples.unnamed).
    repeat (apply List.Forall_cons; [cbn; auto 10|]); constructor.
Defined.


End SessionFacts.

(** ** The sign of sums and quotients

    A sum of numbers none of which is greater than zero is not greater than
    zero, and neither is its quotient by a count: rounding keeps the sign. *)

Section Signs.
Import Sign.
Local Open Scope Z_scope.

Lemma ltb_zero_spec (x : number) :
  (0 <? x)%float = negb (notPositive (Prim2SF x)).
Proof.
  rewrite FloatAxioms.ltb_spec. change (Prim2SF 0) with (S754_zero false).
  unfold SFltb.
  destruct (Prim2SF x) as [s|s| |s m e]; simpl; try reflexivity; now destruct s.
Qed.

Lemma binary_round_aux_negative (m e : Z) (l : location) :
  notPositive (binary_round_aux prec emax true m e l) = true.
Proof.
  unfold binary_round_aux.
  destruct (shr_fexp prec emax m e l) as [mrs1 e1].
  destruct (shr_fexp prec emax _ e1 loc_Exact) as [mrs2 e2].
  destruct (shr_m mrs2); try reflexivity.
  now destruct (e2 <=? emax - prec).
Qed.

Lemma binary_round_aux_sign_clear (m e : Z) (l : location) :
  0 <= m -> signClear (binary_round_aux prec emax false m e l) = true.
Proof.
  intros Hm. unfold binary_round_aux.
  pose proof (shr_fexp_nonneg m e l Hm) as H1.
  destruct (shr_fexp prec emax m e l) as [mrs1 e1]. cbn [fst] in H1.
  pose proof (shr_fexp_nonneg _ e1 loc_Exact
                (round_nearest_even_nonneg _ (loc_of_shr_record mrs1) H1)) as H2.
  destruct (shr_fexp prec emax _ e1 loc_Exact) as [mrs2 e2]. cbn [fst] in H2.
  destruct (shr_m mrs2) as [|p|p]; [reflexivity | | lia].
  now destruct (e2 <=? emax - prec).
Qed.

Lemma SFadd_notPositive (x y : spec_float) :
  notPositive x = true -> notPositive y = true ->
  notPositive (SFadd prec emax x y) = true.
Proof.
  destruct x as [sx|sx| |sx mx ex], y as [sy|sy| |sy my ey]; simpl;
    intros Hx Hy; subst; try reflexivity.
  - now destruct sx, sy.
  - unfold binary_normalize.
    set (a := fst (shl_align mx ex (ex `min` ey))).
    set (b := fst (shl_align my ey (ex `min` ey))).
    change (cond_Zopp true (Z.pos a) + cond_Zopp true (Z.pos b))
      with (Z.neg (a + b)).
    unfold binary_round.
    destruct (shl_align (a + b) _ _) as [mz ez].
    apply binary_round_aux_negative.
Qed.

Lemma SFdiv_notPositive (x y : spec_float) :
  notPositive x = true -> signClear y = true ->
  notPositive (SFdiv prec emax x y) = true.
Proof.
  destruct x as [sx|sx| |sx mx ex], y as [sy|sy| |sy my ey]; simpl;
    intros Hx Hy; subst; try reflexivity; try discriminate;
    try (apply negb_true_iff in Hy; subst; try reflexivity).
  destruct (SFdiv_core_binary _ _ _ _ _ _) as [[mz ez] lz].
  apply binary_round_aux_negative.
Qed.

Lemma of_length_sign_clear (n : nat) : signClear (Prim2SF (of_length n)) = true.
Proof.
  unfold of_length, of_int. rewrite of_uint63_spec.
  pose proof (Uint63.to_Z_bounded (Uint63.of_Z (Z.of_nat n))) as Hb.
  unfold binary_normalize.
  destruct (Uint63.to_Z _) as [|p|p]; [reflexivity | | lia].
  unfold binary_round. destruct (shl_align _ _ _) as [mz ez].
  apply binary_round_aux_sign_clear. lia.
Qed.

Lemma add_not_positive (a t : number) :
  (0 <? a)%float = false -> (0 <? t)%float = false ->
  (0 <? a + t)%float = false.
Proof.
  rewrite !ltb_zero_spec, !negb_false_iff, FloatAxioms.add_spec.
  apply SFadd_notPositive.
Qed.

Lemma div_by_length_not_positive (a : number) (n : nat) :
  (0 <? a)%float = false -> (0 <? a / of_length n)%float = false.
Proof.
  rewrite !ltb_zero_spec, !negb_false_iff, FloatAxioms.div_spec.
  intros Ha. apply SFdiv_notPositive; [exact Ha | apply of_length_sign_clear].
Qed.

Lemma sum_not_positive (terms : list number) (acc : number) :
  (0 <? acc)%float = false ->
  Forall (fun t => (0 <? t)%float = false) terms ->
  (0 <? fold_left PrimFloat.add terms acc)%float = false.
Proof.
  intros Hacc Hterms. revert acc Hacc.
  induction Hterms as [|t terms Ht _ IH]; intros acc Hacc; simpl; [exact Hacc|].
  apply IH. now apply add_not_positive.
Qed.

(** A sum that is greater than zero has a term that is. *)
Lemma positive_sum_has_positive_term (terms : list number) :
  (0 <? Summation.sum_left terms)%float = true ->
  exists t : number, In t terms /\ (0 <? t)%float = true.
Proof.
  intros Hsum.
  destruct (list.Forall_Exists_dec
              (fun t : number => (0 <? t)%float = false)
              (fun t : number => (0 <? t)%float = true)
              (fun t => match (0 <? t)%float as b
                              return {b = false} + {b = true} with
                        | true => right eq_refl
                        | false => left eq_refl
                        end)
              terms) as [Hall|Hex].
  - unfold Summation.sum_left in Hsum.
    rewrite (sum_not_positive terms 0%float eq_refl Hall) in Hsum. discriminate.
  - now apply List.Exists_exists in Hex.
Qed.

End Signs.

(** ** The summary lines and the rows *)

Section SummaryFacts.
Import ProductItem PriceMath ProductAggregator ProductRow.
Local Open Scope float_scope.

(** X13. Whenever the summary shows the "Savings vs Avg" line, at least one
    product of the list has an average price and shows the "Save:" caption
    in its row: a total above zero needs a line that saves. *)
Theorem savings_line_needs_a_saving_row :
  forall products : list ProductItem.t,
    showTotalSavings products = true ->
    exists product : ProductItem.t,
      In product products
      /\ truthy_opt (averagePrice product) = true
      /\ saveCaption product = Content (savingsVsAverage product).
Proof.
  intros products. unfold showTotalSavings, totalSavingsVsAverage.
  rewrite savings_fold_filtered. intros Hpos.
  destruct (positive_sum_has_positive_term _ Hpos) as (t & Hin & Ht).
  unfold Summation.savingsTerms, Summation.withAverage in Hin.
  apply in_map_iff in Hin. destruct Hin as (product & <- & Hin).
  apply filter_In in Hin. destruct Hin as [Hin Hav].
  exists product. split; [exact Hin|]. split; [exact Hav|].
  unfold saveCaption, whenTrue. now rewrite Ht.
Qed.

Lemma savings_line_needs_a_saving_row_witness :
  exists product : ProductItem.t,
    In product Samples.order
    /\ truthy_opt (averagePrice product) = true
    /\ saveCaption product = Content (savingsVsAverage product).
Proof. exact (savings_line_needs_a_saving_row Samples.order eq_refl). Defined.

(** X14. Whenever the summary shows the "Avg Discount" line, at least one
    product of the list has a public price, a discount percentage above
    zero, and shows that percentage in the chip under its name. *)
Theorem discount_line_needs_a_discounted_row :
  forall products : list ProductItem.t,
    showAverageDiscount products = true ->
    exists product : ProductItem.t,
      In product products
      /\ truthy_opt (publicPrice product) = true
      /\ (0 <? grossDiscountPercent product) = true
      /\ exists vatChip : Slot number,
           previewChips product = Content (grossDiscountPercent product, vatChip).
Proof.
  intros products. unfold showAverageDiscount.
  rewrite andb_true_iff. intros [_ Hpos].
  rewrite average_discount_mean in Hpos.
  assert (Hsum : (0 <? Summation.sum_left (Summation.discountTerms products)) = true).
  { destruct (0 <? Summation.sum_left (Summation.discountTerms products)) eqn:Hs;
      [reflexivity|].
    now rewrite (div_by_length_not_positive _ _ Hs) in Hpos. }
  destruct (positive_sum_has_positive_term _ Hsum) as (t & Hin & Ht).
  unfold Summation.discountTerms, eligible in Hin.
  apply in_map_iff in Hin. destruct Hin as (product & <- & Hin).
  apply filter_In in Hin. destruct Hin as [Hin Hpp].
  exists product. split; [exact Hin|]. split; [exact Hpp|]. split; [exact Ht|].
  unfold previewChips, whenNumber.
  destruct (publicPrice product) as [pp|]; [|discriminate].
  simpl in Hpp. rewrite Hpp. eauto.
Qed.

Lemma discount_line_needs_a_discounted_row_witness :
  exists product : ProductItem.t,
    In product Samples.order
    /\ truthy_opt (publicPrice product) = true
    /\ (0 <? grossDiscountPercent product) = true
    /\ exists vatChip : Slot number,
         previewChips product = Content (grossDiscountPercent product, vatChip).
Proof. exact (discount_line_needs_a_discounted_row Samples.order eq_refl). Defined.

(** X15. When no product of the list has a truthy average price, the total
    savings are exactly 0 (not NaN, unlike the average discount of a list
    without public prices), the "Savings vs Avg" line of the summary is
    hidden and no row shows the "Save:" caption. *)
Theorem no_average_price_no_savings :
  forall products : list ProductItem.t,
    Forall (fun p => truthy_opt (averagePrice p) = false) products ->
    totalSavingsVsAverage products = 0
    /\ showTotalSavings products = false
    /\ Forall (fun p => saveCaption p = Nothing) products.
Proof.
  intros products Hnone.
  assert (Htotal : totalSavingsVsAverage products = 0).
  { unfold totalSavingsVsAverage. generalize 0.
    induction Hnone as [|p l Hp _ IH]; intros sum; simpl; [reflexivity|].
    rewrite Hp. apply IH. }
  split; [exact Htotal|]. split.
  - unfold showTotalSavings. now rewrite Htotal.
  - revert Hnone. apply List.Forall_impl. intros p Hp.
    unfold saveCaption, savingsVsAverage. now rewrite Hp.
Qed.

Lemma no_average_price_no_savings_witness :
  totalSavingsVsAverage MoreSamples.unpriced = 0
  /\ showTotalSavings MoreSamples.unpriced = false
  /\ Forall (fun p => saveCaption p = Nothing) MoreSamples.unpriced.
Proof.
  apply no_average_price_no_savings.
  constructor; [reflexivity|]. constructor; [reflexivity|]. constructor.
Defined.

(** X16. A line bought at exactly its average price hides the "Avg:" and
    "Save:" captions of its row, but its details still show the savings cell,
    in the error colour, and the average price footer. *)
Theorem line_at_average_price :
  forall (product : ProductItem.t) (ap : number),
    averagePrice product = Some ap ->
    truthy ap = true ->
    (ap =? unitPrice product) = true ->
    averageCaption product = Nothing
    /\ saveCaption product = Nothing
    /\ savingsCell product = Content (savingsVsAverage product, errorMain)
    /\ averageFooter product = Content ap.
Proof.
  intros product ap Hsome Hap Heq.
  assert (Hsav : (0 <? savingsVsAverage product) = false).
  { unfold savingsVsAverage. rewrite Hsome. simpl. rewrite Hap.
    now apply equal_prices_no_positive_savings. }
  unfold averageCaption, saveCaption, savingsCell, averageFooter, whenNumber,
    whenTrue, strictNotEqual.
  rewrite Hsome, Hap, Heq, Hsav. repeat split.
Qed.

Lemma line_at_average_price_witness :
  let product := Samples.line 1 8 (Some 8) None None in
  averageCaption product = Nothing
  /\ saveCaption product = Nothing
  /\ savingsCell product = Content (0, errorMain)
  /\ averageFooter product = Content 8.
Proof.
  exact (line_at_average_price (Samples.line 1 8 (Some 8) None None) 8
           eq_refl eq_refl eq_refl).
Defined.

End SummaryFacts.

(** ** The count of suppliers *)

Section SupplierFacts.
Import ProductItem ProductAggregator.

Lemma list_to_set_remove_dups (l : list jsstring) :
  (list_to_set (remove_dups l) : gset jsstring) = list_to_set l.
Proof.
  apply set_eq. intros x.
  now rewrite !elem_of_list_to_set, elem_of_remove_dups.
Qed.

Lemma size_names (l : list jsstring) :
  size (list_to_set l : gset jsstring) = length (remove_dups l).
Proof.
  rewrite <- list_to_set_remove_dups.
  apply size_list_to_set, NoDup_remove_dups.
Qed.

Lemma remove_dups_length_le (l : list jsstring) :
  length (remove_dups l) <= length l.
Proof.
  induction l as [|x l IH]; simpl; [lia|].
  destruct (decide_rel elem_of x l); simpl; lia.
Qed.

Lemma remove_dups_full_length (l : list jsstring) :
  length (remove_dups l) = length l <-> NoDup l.
Proof.
  induction l as [|x l IH]; simpl.
  - split; [constructor | reflexivity].
  - pose proof (remove_dups_length_le l) as Hle.
    rewrite NoDup_cons.
    destruct (decide_rel elem_of x l) as [Hin|Hout]; simpl.
    + split; [lia | tauto].
    + split.
      * intros Hlen. split; [exact Hout|]. apply IH. lia.
      * intros [_ Hnd]. f_equal. now apply IH.
Qed.

(** X17. [uniqueSuppliers] is the number of distinct supplier names of the
    list: it is at most the number of products and at least 1 for a list
    that is not empty, it is the number of products exactly when no two of
    them share a supplier, and one more product raises it by one when its
    supplier is new and leaves it unchanged otherwise. *)
Theorem unique_suppliers_count :
  forall products : list ProductItem.t,
    let names := List.map supplier products in
    uniqueSuppliers products = length (remove_dups names)
    /\ uniqueSuppliers products <= length products
    /\ (products <> [] -> 1 <= uniqueSuppliers products)
    /\ (uniqueSuppliers products = length products <-> NoDup names)
    /\ (forall product : ProductItem.t,
           (In (supplier product) names ->
            uniqueSuppliers (product :: products) = uniqueSuppliers products)
           /\ (~ In (supplier product) names ->
               uniqueSuppliers (product :: products)
               = S (uniqueSuppliers products))).
Proof.
  intros products names.
  assert (Hsize : forall l : list ProductItem.t,
             uniqueSuppliers l = length (remove_dups (List.map supplier l))).
  { intros l. apply size_names. }
  assert (Hlen : length names = length products) by apply length_map.
  split; [apply Hsize|]. split; [|split; [|split]].
  - rewrite Hsize, <- Hlen. apply remove_dups_length_le.
  - intros Hne. rewrite Hsize. fold names.
    destruct products as [|p l]; [congruence|]. subst names. simpl.
    destruct (decide_rel elem_of (supplier p) (List.map supplier l)) as [Hin|Hout];
      simpl; [|lia].
    destruct (remove_dups (List.map supplier l)) as [|y t] eqn:Hrd; simpl; [|lia].
    apply elem_of_remove_dups in Hin. rewrite Hrd in Hin.
    now apply elem_of_nil in Hin.
  - rewrite Hsize, <- Hlen. apply remove_dups_full_length.
  - intros product. rewrite !Hsize. fold names. simpl. fold names.
    rewrite <- !list_elem_of_In.
    split; intros Hin; destruct (decide_rel elem_of (supplier product) names);
      simpl; tauto.
Qed.

End SupplierFacts.

(** ** TableRow *)

Section TableRowFacts.
Import TableRow.
Context {Node Handler : Type}.

Lemma In_existsb (token : string) (tokens : list string) :
  In token tokens <-> existsb (String.eqb token) tokens = true.
Proof.
  rewrite existsb_exists. split.
  - intros Hin. exists token. split; [exact Hin | apply String.eqb_refl].
  - intros (t & Hin & Heq). apply String.eqb_eq in Heq. now subst.
Qed.

(** X18. The class list of a row: the token ["false"] is in it exactly when
    the row is selected or has a warning (the interpolated condition of the
    highlight classes is then the boolean [false]); the highlight class is
    there exactly for a highlighted row that is neither selected nor warned
    and the hover class for a plain one; ["cursor-pointer"] is there exactly
    when a click handler is given; the selection and warning backgrounds
    follow their flags, also both at once, and ["bg-white"] is always
    there. *)
Theorem row_class_tokens :
  forall p : TableRowProps Node Handler,
    let tokens := className (render p) in
    (In "false" tokens <-> isSelected p = true \/ hasWarning p = true)
    /\ (In "bg-blue-50/50" tokens
        <-> isHighlighted p = true /\ isSelected p = false /\ hasWarning p = false)
    /\ (In "hover:bg-blue-50/80" tokens
        <-> isHighlighted p = false /\ isSelected p = false /\ hasWarning p = false)
    /\ (In "cursor-pointer" tokens <-> onClick p <> None)
    /\ (In "rounded-b-lg" tokens <-> isLast p = true)
    /\ (In "bg-blue-50" tokens <-> isSelected p = true)
    /\ (In "bg-amber-50" tokens <-> hasWarning p = true)
    /\ In "bg-white" tokens.
Proof.
  intros [cells [h|] hl sel last warn msg] tokens; subst tokens;
    rewrite !In_existsb; unfold render, rowClasses;
    cbn [className isSelected hasWarning isHighlighted isLast TableRow.onClick];
    destruct hl, sel, last, warn; vm_compute;
    repeat split; intros; try discriminate; try tauto; try congruence;
    intuition discriminate.
Qed.

(** X19. The cells of a row: one rendered cell per entry of [cells], in
    order, keyed by its index (so the keys are distinct); the content sits
    inside a [Tooltip] exactly when the tooltip is a string that is not
    empty, and bare otherwise; the click handler is passed on unchanged; and
    the [warningMessage] prop never reaches the output. *)
Theorem row_cells :
  forall p : TableRowProps Node Handler,
    clickHandler (render p) = onClick p
    /\ List.map key (children (render p)) = seq 0 (length (rowCells p))
    /\ NoDup (List.map key (children (render p)))
    /\ (forall (i : nat) (cell : TableCellProps Node),
           rowCells p !! i = Some cell ->
           exists r : RenderedCell Node,
             children (render p) !! i = Some r
             /\ key r = i
             /\ classes r = cellClasses cell
             /\ (forall text : jsstring,
                    child r = InTooltip text (content cell)
                    <-> tooltip cell = Some text /\ text <> [])
             /\ (child r = Bare (content cell)
                 <-> tooltip cell = None \/ tooltip cell = Some []))
    /\ (forall message : jsstring,
           render (mkRow (rowCells p) (onClick p) (isHighlighted p)
                     (isSelected p) (isLast p) (hasWarning p) message)
           = render p).
Proof.
  intros p.
  assert (Hkeys : List.map key (children (render p)) = seq 0 (length (rowCells p))).
  { unfold render. cbn [children].
    assert (Hgen : forall (l : list (TableCellProps Node)) (f : nat -> nat),
               List.map key
                 (imap (fun index cell =>
                          mkRendered (f index) (cellClasses cell) (cellChild cell)) l)
               = List.map f (seq 0 (length l))).
    { induction l as [|c l IH]; intros f; simpl; [reflexivity|].
      f_equal. unfold compose. rewrite (IH (fun i => f (S i))).
      now rewrite <- seq_shift, List.map_map. }
    rewrite (Hgen (rowCells p) (fun i => i)). apply List.map_id. }
  split; [reflexivity|]. split; [exact Hkeys|]. split; [|split].
  - rewrite Hkeys. apply NoDup_seq.
  - intros i cell Hcell. unfold render. cbn [children].
    rewrite list_lookup_imap, Hcell. simpl.
    eexists. split; [reflexivity|]. cbn [key classes child].
    split; [reflexivity|]. split; [reflexivity|].
    unfold cellChild. destruct (tooltip cell) as [[|c t]|]; split.
    + intros text. split; [discriminate | intros [[= <-] H]; congruence].
    + split; [intros _; now right | reflexivity].
    + intros text.
      split; [intros [= <-]; split; [reflexivity | discriminate]
             | intros [[= <-] _]; reflexivity].
    + split; [discriminate | intros [[=]|[=]]].
    + intros text. split; [discriminate | intros [[=] _]].
    + split; [intros _; now left | reflexivity].
  - reflexivity.
Qed.

End TableRowFacts.
